(** * Allocation of oncological surgeries under budget, room-hours and ICU beds

    Shallow embedding of [otimizacao_onco_simplex.py] (the greedy heuristic
    [resolver_simplex_guloso] and the scenario loop around it) and of
    [otimizacao_onco_pulp.py] (the integer linear program handed to CBC
    through PuLP).

    Numbers.  Python ints and floats are embedded as exact rationals [Q];
    floating-point rounding is outside the model.  Quantities produced by
    [int(...)] and the values of the integer decision variables are [Z]. *)

From Stdlib Require Import List String ZArith QArith Qround Qminmax Qabs.
From Stdlib Require Import Lqa Lia Permutation Bool DecimalString Sorted.
From Stdlib Require DecimalNat DecimalFacts.
Import ListNotations.

Open Scope Q_scope.

(** ** Python values and exceptions *)

Inductive Excecao : Type :=
  | ZeroDivisionError
  | TypeError
  | KeyError.

Inductive Resultado (A : Type) : Type :=
  | Ok (a : A)
  | Levanta (e : Excecao).

Arguments Ok {A} a.
Arguments Levanta {A} e.

Definition bind {A B : Type} (m : Resultado A) (k : A -> Resultado B)
  : Resultado B :=
  match m with
  | Ok a => k a
  | Levanta e => Levanta e
  end.

Notation "x <- m ;; k" := (bind m (fun x => k))
  (at level 61, m at next level, right associativity).

(** [a // b] on Python numbers: the floor of the quotient, and
    [ZeroDivisionError] on a zero divisor. *)
Definition floordiv (a b : Q) : Resultado Q :=
  if Qeq_bool b 0 then Levanta ZeroDivisionError
  else Ok (inject_Z (Qfloor (a / b))).

(** [a / b] on Python numbers. *)
Definition truediv (a b : Q) : Resultado Q :=
  if Qeq_bool b 0 then Levanta ZeroDivisionError
  else Ok (a / b).

(** [int(q)]: truncation towards zero. *)
Definition int (q : Q) : Z :=
  if Qle_bool 0 q then Qfloor q else Qceiling q.

(** [min(a, b, c)] where [c] may be [float('inf')], written [None]. *)
Definition min3 (a b : Q) (c : option Q) : Q :=
  match c with
  | Some c' => Qmin (Qmin a b) c'
  | None => Qmin a b
  end.

(** ** The procedure table *)

(** One row of the table [procedimentos]. *)
Record Proc : Type := mkProc {
  id : string;
  procedimento : string;
  gravidade : Q;
  tempo_h : Q;
  custo_r : Q;
  uti : Q;
  incidencia_pe : Q
}.

(** The DataFrame handed to the solvers: the seven columns of the table,
    row by row, and the column ['peso'] when it has been assigned. *)
Record DataFrame : Type := mkDF {
  linhas : list Proc;
  peso : option (list Q)
}.

(** [df['peso'] = serie]: creates the column or overwrites it. *)
Definition set_peso (d : DataFrame) (serie : list Q) : DataFrame :=
  {| linhas := linhas d; peso := Some serie |}.

(** [df.copy()]: a fresh table with the same contents. *)
Definition copy (d : DataFrame) : DataFrame := d.

(** The reference table of eight procedures. *)
Definition procedimentos : list Proc := [
  mkProc "P1" "Mastectomia (Cancer de Mama)" 8.5 3.5 15000 1 3.62;
  mkProc "P2" "Prostatectomia (Cancer de Prostata)" 7.8 4.0 18000 1 10.01;
  mkProc "P3" "Colectomia (Cancer de Colon)" 9.2 5.0 25000 1 13.71;
  mkProc "P4" "Gastrectomia (Cancer de Estomago)" 9.5 6.0 28000 1 7.36;
  mkProc "P5" "Lobectomia (Cancer de Pulmao)" 9.8 5.5 35000 1 3.09;
  mkProc "P6" "Histerectomia (Cancer de Utero)" 7.5 3.0 14000 1 5.20;
  mkProc "P7" "Tireoidectomia (Cancer de Tireoide)" 6.5 2.5 12000 0 4.80;
  mkProc "P8" "Nefrectomia (Cancer de Rim)" 8.0 4.5 22000 1 6.15
].

Definition df : DataFrame := {| linhas := procedimentos; peso := None |}.

(** ** otimizacao_onco_simplex.py *)

Module Simplex.

(** One dictionary appended to [solucao]. *)
Record Item : Type := mkItem {
  ID : string;
  Procedimento : string;
  Quantidade : Z;
  Gravidade : Q;
  Tempo_Total_h : Q;
  Custo_Total_R : Q;
  Leitos_UTI : Q;
  Peso : Q
}.

(** The local variables the loop updates. *)
Record Locais : Type := mkLocais {
  solucao : list Item;
  orcamento_usado : Q;
  tempo_usado : Q;
  uti_usada : Q;
  valor_objetivo : Q
}.

(** The dictionary of totals returned next to [solucao]. *)
Record Metricas : Type := mkMetricas {
  m_valor_objetivo : Q;
  m_orcamento_usado : Q;
  m_tempo_usado : Q;
  m_uti_usada : Q;
  m_total_cirurgias : Z
}.

(** The series assigned to [df['peso']] under [criterio].  A zero
    [custo_r] makes pandas produce inf or NaN in the last branch, which
    [Q] does not have; such a row raises [ZeroDivisionError] in the loop
    below in any case. *)
Definition coluna_peso (criterio : string) (rows : list Proc) : list Q :=
  if String.eqb criterio "gravidade" then map gravidade rows
  else if String.eqb criterio "incidencia" then map incidencia_pe rows
  else map (fun p => gravidade p / custo_r p * 10000) rows.

(** Rows by decreasing weight.  Equal weights are kept in their original
    order; pandas' default sort does not promise an order among them, and
    the statements below only use that the result is a permutation. *)
Fixpoint inserir (r : Proc * Q) (l : list (Proc * Q)) : list (Proc * Q) :=
  match l with
  | [] => [r]
  | h :: t =>
      if Qle_bool (snd h) (snd r) then r :: h :: t
      else h :: inserir r t
  end.

Definition ordenar (l : list (Proc * Q)) : list (Proc * Q) :=
  fold_right inserir [] l.

(** [df.sort_values('peso', ascending=False).reset_index(drop=True)]: the
    rows with their weights; [KeyError] without a column ['peso']. *)
Definition sort_values (d : DataFrame) : Resultado (list (Proc * Q)) :=
  match peso d with
  | Some col => Ok (ordenar (combine (linhas d) col))
  | None => Levanta KeyError
  end.

(** [qtd_max] for the row [proc] with the resources used so far. *)
Definition qtd_max (orcamento horas_sala leitos_uti : Q) (st : Locais)
    (proc : Proc * Q) : Resultado Z :=
  let p := fst proc in
  max_por_orcamento <- floordiv (orcamento - orcamento_usado st) (custo_r p) ;;
  max_por_tempo <- truediv (horas_sala - tempo_usado st) (tempo_h p) ;;
  max_por_uti <-
    (if Qlt_le_dec 0 (uti p)
     then (m <- floordiv (leitos_uti - uti_usada st) (uti p) ;; Ok (Some m))
     else Ok None) ;;
  Ok (int (min3 max_por_orcamento max_por_tempo max_por_uti)).

(** The body of [if qtd_max > 0]: one entry appended to [solucao] and the
    four running totals advanced. *)
Definition registra (st : Locais) (proc : Proc * Q) (q : Z) : Locais :=
  let p := fst proc in
  {| solucao := solucao st ++ [
       {| ID := id p;
          Procedimento := procedimento p;
          Quantidade := q;
          Gravidade := gravidade p;
          Tempo_Total_h := inject_Z q * tempo_h p;
          Custo_Total_R := inject_Z q * custo_r p;
          Leitos_UTI := inject_Z q * uti p;
          Peso := snd proc |} ];
     orcamento_usado := orcamento_usado st + inject_Z q * custo_r p;
     tempo_usado := tempo_usado st + inject_Z q * tempo_h p;
     uti_usada := uti_usada st + inject_Z q * uti p;
     valor_objetivo := valor_objetivo st + inject_Z q * snd proc |}.

(** One iteration of [for idx, proc in df_sorted.iterrows()]. *)
Definition passo (orcamento horas_sala leitos_uti : Q) (st : Locais)
    (proc : Proc * Q) : Resultado Locais :=
  q <- qtd_max orcamento horas_sala leitos_uti st proc ;;
  if (0 <? q)%Z then Ok (registra st proc q) else Ok st.

Fixpoint laco (orcamento horas_sala leitos_uti : Q)
    (rows : list (Proc * Q)) (st : Locais) : Resultado Locais :=
  match rows with
  | [] => Ok st
  | proc :: rest =>
      st' <- passo orcamento horas_sala leitos_uti st proc ;;
      laco orcamento horas_sala leitos_uti rest st'
  end.

Definition inicio : Locais :=
  {| solucao := []; orcamento_usado := 0; tempo_usado := 0;
     uti_usada := 0; valor_objetivo := 0 |}.

Definition soma_quantidade (s : list Item) : Z :=
  fold_right (fun i acc => (Quantidade i + acc)%Z) 0%Z s.

(** [resolver_simplex_guloso(df, orcamento, horas_sala, leitos_uti,
    criterio)].  The table is a mutable object: the second component is
    the table as the call leaves it, on normal return and on an exception
    alike. *)
Definition resolver_simplex_guloso (d : DataFrame)
    (orcamento horas_sala leitos_uti : Q) (criterio : string)
  : Resultado (list Item * Metricas) * DataFrame :=
  let d' := set_peso d (coluna_peso criterio (linhas d)) in
  (df_sorted <- sort_values d' ;;
   st <- laco orcamento horas_sala leitos_uti df_sorted inicio ;;
   Ok (solucao st,
       {| m_valor_objetivo := valor_objetivo st;
          m_orcamento_usado := orcamento_usado st;
          m_tempo_usado := tempo_usado st;
          m_uti_usada := uti_usada st;
          m_total_cirurgias := soma_quantidade (solucao st) |}),
   d').

(** A scenario of the table [cenarios]. *)
Record Cenario : Type := mkCenario {
  nome : string;
  orcamento : Q;
  horas_sala : Q;
  leitos_uti : Q;
  prioridade : string
}.

Definition cenarios : list (string * Cenario) := [
  ("1_REAL"%string,
   mkCenario "Cenario Real - PROCAPE/HCP" 500000 480 15 "incidencia");
  ("2_OTIMISTA"%string,
   mkCenario "Cenario Otimista - Investimento Adicional" 800000 720 25
     "gravidade");
  ("3_PESSIMISTA"%string,
   mkCenario "Cenario Pessimista - Corte Orcamentario" 300000 320 8
     "gravidade")
].

(** What one turn of the scenario loop prints after the title. *)
Inductive Relato : Type :=
  | PlanoOtimo (s : list Item) (m : Metricas) (pct_tempo pct_orc pct_uti : Q)
  | NenhumaSolucaoViavel.

(** The body of [for key, cen in cenarios.items()]: the heuristic runs on
    a copy of the table; the entry stored in [resultados_todos] is the
    second component, [None] standing for
    [{'solucao': None, 'metricas': None}].  The third component is the
    module-level table after the turn. *)
Definition turno_cenario (global : DataFrame) (cen : Cenario)
  : Resultado (Relato * option (list Item * Metricas)) * DataFrame :=
  let '(r, _) :=
    resolver_simplex_guloso (copy global) (orcamento cen) (horas_sala cen)
      (leitos_uti cen) (prioridade cen) in
  (sm <- r ;;
   let '(s, m) := sm in
   match s with
   | _ :: _ =>
       pt <- truediv (m_tempo_usado m) (horas_sala cen) ;;
       po <- truediv (m_orcamento_usado m) (orcamento cen) ;;
       pu <- truediv (m_uti_usada m) (leitos_uti cen) ;;
       Ok (PlanoOtimo s m (pt * 100) (po * 100) (pu * 100), Some (s, m))
   | [] => Ok (NenhumaSolucaoViavel, None)
   end,
   global).

End Simplex.

(** ** otimizacao_onco_pulp.py *)

Module Pulp.

Inductive LpSense : Type := LpMaximize | LpMinimize.

Inductive LpCategory : Type := LpInteger | LpContinuous.

(** The five entries of PuLP's [LpStatus] table. *)
Inductive LpStatus : Type :=
  | NotSolved
  | Optimal
  | Infeasible
  | Unbounded
  | Undefined.

Record LpVariable : Type := mkVar {
  v_nome : string;
  lowBound : Q;
  cat : LpCategory
}.

(** A named constraint [lpSum(coefs[i] * x[i]) <= limite]. *)
Record LpConstraint : Type := mkRestricao {
  r_nome : string;
  coefs : list Q;
  limite : Q
}.

Record LpProblem : Type := mkProb {
  p_nome : string;
  sense : LpSense;
  variaveis : list LpVariable;
  objetivo : list Q;
  restricoes : list LpConstraint
}.

(** [lpSum([c[i] * x[i] for i in range(n)])] at the integer point [x]. *)
Fixpoint lpSum (c : list Q) (x : list Z) : Q :=
  match c, x with
  | ci :: c', xi :: x' => ci * inject_Z xi + lpSum c' x'
  | _, _ => 0
  end.

(** [x = [LpVariable(f"x_{i}", lowBound=0, cat='Integer') for i in range(n)]] *)
Definition x (n : nat) : list LpVariable :=
  map (fun i => mkVar ("x_" ++ NilZero.string_of_uint (Nat.to_uint i)) 0
                  LpInteger)
      (seq 0 n).

(** The array [w] of objective weights under [criterio].  As in the
    heuristic, a zero [custo_r] is outside what [Q] can express in the
    last branch. *)
Definition w (criterio : string) (rows : list Proc) : list Q :=
  if String.eqb criterio "gravidade" then map gravidade rows
  else if String.eqb criterio "incidencia" then map incidencia_pe rows
  else map (fun p => gravidade p / custo_r p * 10000) rows.

(** The local [prob] when [prob.solve] is called: objective [Valor_Total]
    and the constraints [Orcamento], [Tempo], [UTI], in that order. *)
Definition prob (d : DataFrame) (orcamento horas_sala leitos_uti : Q)
    (criterio : string) : LpProblem :=
  let n := List.length (linhas d) in
  {| p_nome := "Cirurgias_Oncologicas";
     sense := LpMaximize;
     variaveis := x n;
     objetivo := w criterio (linhas d);
     restricoes := [
       mkRestricao "Orcamento" (map custo_r (linhas d)) orcamento;
       mkRestricao "Tempo" (map tempo_h (linhas d)) horas_sala;
       mkRestricao "UTI" (map uti (linhas d)) leitos_uti ] |}.

(** An integer point within the bounds of the variables that satisfies
    every constraint. *)
Definition dentro_dos_limites (vs : list LpVariable) (y : list Z) : bool :=
  Nat.eqb (List.length y) (List.length vs)
  && forallb (fun vy => Qle_bool (lowBound (fst vy)) (inject_Z (snd vy)))
       (combine vs y).

Definition satisfaz (r : LpConstraint) (y : list Z) : bool :=
  Qle_bool (lpSum (coefs r) y) (limite r).

Definition viavel (p : LpProblem) (y : list Z) : bool :=
  dentro_dos_limites (variaveis p) y
  && forallb (fun r => satisfaz r y) (restricoes p).

(** [value(prob.objective)] at the point [y]. *)
Definition valor (p : LpProblem) (y : list Z) : Q := lpSum (objetivo p) y.

Definition otimo (p : LpProblem) (y : list Z) : Prop :=
  viavel p y = true /\
  forall z, viavel p z = true -> valor p z <= valor p y.

(** What [prob.solve(PULP_CBC_CMD(msg=0))] leaves behind: the status and
    the values of the variables.  CBC is an exact branch-and-bound solver
    outside this repository; it enters through its contract, for a
    maximisation problem over integer variables: [Optimal] comes with an
    optimum, [Infeasible] means that no point is feasible, [Unbounded]
    that feasible points reach every objective value, and the two
    remaining statuses promise nothing. *)
Definition contrato_cbc (p : LpProblem) (r : LpStatus * list Z) : Prop :=
  match fst r with
  | Optimal => otimo p (snd r)
  | Infeasible => forall y, viavel p y = false
  | Unbounded => forall M : Q, exists y, viavel p y = true /\ M < valor p y
  | NotSolved | Undefined => True
  end.

(** The dictionary returned by [otimizar_cirurgias_pulp]. *)
Record Linha : Type := mkLinha {
  ID : string;
  Procedimento : string;
  Quantidade : Z;
  Tempo_Total_h : Q;
  Custo_Total_R : Q;
  Leitos_UTI : Q
}.

Record Metricas : Type := mkMetricas {
  total_cirurgias : Z;
  total_tempo : Q;
  total_custo : Q;
  total_uti : Q;
  valor_objetivo : Q
}.

Record Retorno : Type := mkRetorno {
  status : LpStatus;
  solucao : option (list Linha);
  metricas : option Metricas
}.

(** [otimizar_cirurgias_pulp(df, orcamento, horas_sala, leitos_uti,
    criterio)], with the outcome of the solver call as [cbc].  The table
    is only read; the second component is the table after the call.

    In the [Optimal] branch the loop evaluates [int(x[i].varValue())]:
    [varValue] is a data attribute of PuLP's [LpVariable] (a float once
    solved), so calling it raises [TypeError] at the first row; with an
    empty table the loop is skipped and [df_sol['Quantidade']] on the
    column-less [pd.DataFrame([])] raises [KeyError].  The statements
    below about optimal allocations are therefore about the status and the
    variable values the solver leaves in [prob]. *)
Definition otimizar_cirurgias_pulp (cbc : LpProblem -> LpStatus * list Z)
    (d : DataFrame) (orcamento horas_sala leitos_uti : Q) (criterio : string)
  : Resultado Retorno * DataFrame :=
  let p := prob d orcamento horas_sala leitos_uti criterio in
  let st := fst (cbc p) in
  (match st with
   | Optimal =>
       match linhas d with
       | _ :: _ => Levanta TypeError
       | [] => Levanta KeyError
       end
   | _ => Ok {| status := st; solucao := None; metricas := None |}
   end,
   d).

End Pulp.

(** ** Statement vocabulary *)

(** The objective criterion as the specification words it: an enumerated
    selector, and the per-unit weight it derives from a procedure. *)
Inductive ObjectiveCriterion : Type :=
  | Severity
  | Incidence
  | CostEfficiency.

Definition peso_especificado (c : ObjectiveCriterion) (p : Proc) : Q :=
  match c with
  | Severity => gravidade p
  | Incidence => incidencia_pe p
  | CostEfficiency => gravidade p / custo_r p * 10000
  end.

(** The tag of each criterion: ['gravidade'] and ['incidencia'] are
    tested by the code; the cost-efficiency tag is the one each file
    names in the comment of its [else] branch. *)
Definition tag_pulp (c : ObjectiveCriterion) : string :=
  match c with
  | Severity => "gravidade"
  | Incidence => "incidencia"
  | CostEfficiency => "custo_beneficio"
  end.

Definition tag_simplex (c : ObjectiveCriterion) : string :=
  match c with
  | Severity => "gravidade"
  | Incidence => "incidencia"
  | CostEfficiency => "custo-beneficio"
  end.

(** Strictly positive unit costs and durations: the invariant of a valid
    catalog. *)
Definition catalogo_valido (rows : list Proc) : Prop :=
  Forall (fun p => 0 < custo_r p /\ 0 < tempo_h p) rows.

(** No row divides by zero in the greedy loop. *)
Definition sem_divisor_nulo (rows : list Proc) : Prop :=
  Forall (fun p => ~ custo_r p == 0 /\ ~ tempo_h p == 0) rows.

(** The ICU column is a 0/1 flag. *)
Definition uti_binaria (rows : list Proc) : Prop :=
  Forall (fun p => uti p == 0 \/ uti p == 1) rows.

(** Sum of a numeric field over the entries of a greedy plan. *)
Definition total (f : Simplex.Item -> Q) (s : list Simplex.Item) : Q :=
  fold_right (fun i acc => f i + acc) 0 s.

(** The entry [i] of a plan is [Quantidade i] units of the row [p]. *)
Definition item_de (p : Proc) (i : Simplex.Item) : Prop :=
  Simplex.ID i = id p /\
  Simplex.Custo_Total_R i = inject_Z (Simplex.Quantidade i) * custo_r p /\
  Simplex.Tempo_Total_h i = inject_Z (Simplex.Quantidade i) * tempo_h p /\
  Simplex.Leitos_UTI i = inject_Z (Simplex.Quantidade i) * uti p.

(** The fictitious case of the closing narrative of
    [otimizacao_onco_simplex.py]: one room with 6 free hours, one free ICU
    bed, and three patients with (weight, hours, ICU) = (10, 6, yes),
    (8, 3, yes), (6, 2, no).  The narrative gives neither costs nor a
    budget: the rows take the unit costs and incidences of the same
    procedures in [procedimentos], and the budget is that of the scenario
    [1_REAL], which does not bind here. *)
Definition didatico : DataFrame :=
  {| linhas := [
       mkProc "Sr. Jose" "Gastrectomia (Cancer Estomago Avancado)"
         10 6 28000 1 7.36;
       mkProc "Dona Ana" "Mastectomia (Cancer de Mama)" 8 3 15000 1 3.62;
       mkProc "Sr. Carlos" "Tireoidectomia (Cancer Tireoide)"
         6 2 12000 0 4.80 ];
     peso := None |}.

Definition prob_didatico : Pulp.LpProblem :=
  Pulp.prob didatico 500000 6 1 "gravidade".

(** The metrics of an empty plan. *)
Definition metricas_nulas : Simplex.Metricas :=
  {| Simplex.m_valor_objetivo := 0;
     Simplex.m_orcamento_usado := 0;
     Simplex.m_tempo_usado := 0;
     Simplex.m_uti_usada := 0;
     Simplex.m_total_cirurgias := 0 |}.

(** An upper bound on the objective over the points within the budget. *)
Fixpoint cota (w c : list Q) (orcamento : Q) : Q :=
  match w, c with
  | wi :: w', ci :: c' => Qabs wi * (orcamento / ci) + cota w' c' orcamento
  | _, _ => 0
  end.

(** A table with negative unit costs, for the limits of the dominance of
    the exact solver over the heuristic. *)
Definition custos_negativos : DataFrame :=
  {| linhas := [
       mkProc "A" "A" 10 1 (-1) 0 0;
       mkProc "C" "C" 1 (1 # 2) (-1) 0 0 ];
     peso := None |}.

(** One more unit of the procedure [p] does not fit in what is left of
    the envelope once [ou], [tu] and [uu] of budget, room hours and ICU
    beds are used.  The ICU ceiling counts only for a procedure whose ICU
    requirement is positive, as in the loop. *)
Definition nao_cabe (orcamento horas_sala leitos_uti ou tu uu : Q)
    (p : Proc) : Prop :=
  orcamento - ou < custo_r p \/
  horas_sala - tu < tempo_h p \/
  (0 < uti p /\ leitos_uti - uu < uti p).

(** Costs and durations strictly positive and ICU requirements
    non-negative, row by row of the sorted table. *)
Definition linha_valida (r : Proc * Q) : Prop :=
  0 < custo_r (fst r) /\ 0 < tempo_h (fst r) /\ 0 <= uti (fst r).

(** Two procedures for which a larger budget makes the heuristic do
    worse: the heavier one is affordable only with the larger budget and
    then takes all the room hours. *)
Definition orcamento_adverso : DataFrame :=
  {| linhas := [
       mkProc "A" "A" 10 10 10 0 0;
       mkProc "B" "B" 9 1 1 0 0 ];
     peso := None |}.

(** All integer vectors between zero and the given ceilings, component by
    component. *)
Fixpoint caixa (tetos : list Z) : list (list Z) :=
  match tetos with
  | [] => [[]]
  | u :: us =>
      flat_map (fun v => map (cons v) (caixa us))
        (map Z.of_nat (seq 0 (S (Z.to_nat u))))
  end.

(** The weight the three-way test of both files gives one row. *)
Definition peso_linha (criterio : string) (p : Proc) : Q :=
  if String.eqb criterio "gravidade" then gravidade p
  else if String.eqb criterio "incidencia" then incidencia_pe p
  else gravidade p / custo_r p * 10000.

(** The fictitious case with its rows in the opposite order. *)
Definition didatico_invertido : DataFrame :=
  {| linhas := rev (linhas didatico); peso := None |}.

(** Rows by non-increasing weight. *)
Definition peso_decrescente (a b : Proc * Q) : Prop := snd b <= snd a.

(** The value of one entry of a plan: its quantity times its weight. *)
Definition valor_item (i : Simplex.Item) : Q :=
  inject_Z (Simplex.Quantidade i) * Simplex.Peso i.

(** ** Arithmetic of [int], [//] and [min] *)

Lemma int_pos_le (q : Q) : (0 < int q)%Z -> inject_Z (int q) <= q.
Proof.
  unfold int. destruct (Qle_bool 0 q) eqn:E; intro Hpos.
  - apply Qfloor_le.
  - exfalso.
    assert (Hq : q <= inject_Z 0).
    { destruct (Qlt_le_dec q 0) as [Hlt | Hge].
      - apply Qlt_le_weak. exact Hlt.
      - apply Qle_bool_iff in Hge. congruence. }
    apply Qceiling_resp_le in Hq. rewrite Qceiling_Z in Hq. lia.
Qed.

Lemma int_small (q : Q) : q < 1 -> (int q <= 0)%Z.
Proof.
  intro Hq. unfold int. destruct (Qle_bool 0 q) eqn:E.
  - assert (H1 : inject_Z (Qfloor q) < inject_Z 1).
    { eapply Qle_lt_trans; [apply Qfloor_le | exact Hq]. }
    rewrite <- Zlt_Qlt in H1. lia.
  - assert (Hq0 : q <= inject_Z 0).
    { destruct (Qlt_le_dec q 0) as [Hlt | Hge].
      - apply Qlt_le_weak. exact Hlt.
      - apply Qle_bool_iff in Hge. congruence. }
    apply Qceiling_resp_le in Hq0. rewrite Qceiling_Z in Hq0. exact Hq0.
Qed.

Lemma inject_Z_pos (q : Z) : (0 < q)%Z -> 1 <= inject_Z q.
Proof.
  intro H. change 1 with (inject_Z 1). rewrite <- Zle_Qle. lia.
Qed.

(** If [q >= 1] units fit in the quotient [a / c] of a non-negative
    remainder, the divisor is positive and [q] units cost at most [a]. *)
Lemma cabe (a c : Q) (q : Z) :
  ~ c == 0 -> 0 <= a -> (0 < q)%Z -> inject_Z q <= a / c ->
  0 < c /\ inject_Z q * c <= a.
Proof.
  intros Hc Ha Hq Hle.
  pose proof (inject_Z_pos q Hq) as H1.
  assert (Hr : a / c * c == a) by (field; exact Hc).
  destruct (Qlt_le_dec 0 c) as [Hpos | Hneg].
  - split; [exact Hpos |].
    rewrite <- Hr. apply Qmult_le_compat_r; [exact Hle | lra].
  - exfalso.
    assert (Hlt : c < 0).
    { destruct (Qlt_le_dec c 0) as [L | G]; [exact L |].
      exfalso. apply Hc. lra. }
    assert (0 < a / c) by lra.
    assert (a / c * c < 0).
    { setoid_replace (a / c * c) with (- (a / c * (- c))) by ring.
      assert (0 < a / c * - c) by (apply Qmult_lt_0_compat; lra).
      lra. }
    lra.
Qed.

Lemma min3_le_1 (a b : Q) (c : option Q) : min3 a b c <= a.
Proof.
  unfold min3. destruct c as [c' |].
  - eapply Qle_trans; [apply Q.le_min_l | apply Q.le_min_l].
  - apply Q.le_min_l.
Qed.

Lemma min3_le_2 (a b : Q) (c : option Q) : min3 a b c <= b.
Proof.
  unfold min3. destruct c as [c' |].
  - eapply Qle_trans; [apply Q.le_min_l | apply Q.le_min_r].
  - apply Q.le_min_r.
Qed.

Lemma min3_le_3 (a b c : Q) : min3 a b (Some c) <= c.
Proof. unfold min3. apply Q.le_min_r. Qed.

Lemma floordiv_ok (a b r : Q) :
  floordiv a b = Ok r -> ~ b == 0 /\ r = inject_Z (Qfloor (a / b)).
Proof.
  unfold floordiv. destruct (Qeq_bool b 0) eqn:E; [discriminate |].
  intro H. injection H as <-. split; [| reflexivity].
  intro Hb. apply Qeq_bool_iff in Hb. congruence.
Qed.

Lemma truediv_ok (a b r : Q) :
  truediv a b = Ok r -> ~ b == 0 /\ r = a / b.
Proof.
  unfold truediv. destruct (Qeq_bool b 0) eqn:E; [discriminate |].
  intro H. injection H as <-. split; [| reflexivity].
  intro Hb. apply Qeq_bool_iff in Hb. congruence.
Qed.

Lemma floordiv_total (a b : Q) :
  ~ b == 0 -> floordiv a b = Ok (inject_Z (Qfloor (a / b))).
Proof.
  intro Hb. unfold floordiv. destruct (Qeq_bool b 0) eqn:E; [| reflexivity].
  apply Qeq_bool_iff in E. contradiction.
Qed.

Lemma truediv_total (a b : Q) : ~ b == 0 -> truediv a b = Ok (a / b).
Proof.
  intro Hb. unfold truediv. destruct (Qeq_bool b 0) eqn:E; [| reflexivity].
  apply Qeq_bool_iff in E. contradiction.
Qed.

(** ** One iteration of the greedy loop *)

Section Passo.

Variables orcamento horas_sala leitos_uti : Q.

Local Abbreviation qtd_max :=
  (Simplex.qtd_max orcamento horas_sala leitos_uti).
Local Abbreviation passo := (Simplex.passo orcamento horas_sala leitos_uti).
Local Abbreviation laco := (Simplex.laco orcamento horas_sala leitos_uti).

Lemma passo_casos (st st' : Simplex.Locais) (proc : Proc * Q) :
  passo st proc = Ok st' ->
  exists q, qtd_max st proc = Ok q /\
    (((q <= 0)%Z /\ st' = st) \/
     ((0 < q)%Z /\ st' = Simplex.registra st proc q)).
Proof.
  unfold Simplex.passo.
  destruct (qtd_max st proc) as [q | e]; simpl; [| discriminate].
  destruct (0 <? q)%Z eqn:E; intro H; injection H as <-; exists q;
    (split; [reflexivity |]).
  - right. apply Z.ltb_lt in E. auto.
  - left. apply Z.ltb_ge in E. auto.
Qed.

(** A row with non-zero cost and duration never raises. *)
Lemma qtd_max_total (st : Simplex.Locais) (proc : Proc * Q) :
  ~ custo_r (fst proc) == 0 -> ~ tempo_h (fst proc) == 0 ->
  exists q, qtd_max st proc = Ok q.
Proof.
  intros Hc Ht. unfold Simplex.qtd_max.
  rewrite (floordiv_total _ _ Hc). cbn [bind].
  rewrite (truediv_total _ _ Ht). cbn [bind].
  destruct (Qlt_le_dec 0 (uti (fst proc))) as [Hu | Hu].
  - rewrite floordiv_total by lra. cbn [bind]. eexists. reflexivity.
  - cbn [bind]. eexists. reflexivity.
Qed.

(** A positive [qtd_max] fits in what is left of each resource. *)
Lemma qtd_max_cabe (st : Simplex.Locais) (proc : Proc * Q) (q : Z) :
  qtd_max st proc = Ok q -> (0 < q)%Z ->
  Simplex.orcamento_usado st <= orcamento ->
  Simplex.tempo_usado st <= horas_sala ->
  Simplex.uti_usada st <= leitos_uti ->
  inject_Z q * custo_r (fst proc) <= orcamento - Simplex.orcamento_usado st /\
  inject_Z q * tempo_h (fst proc) <= horas_sala - Simplex.tempo_usado st /\
  inject_Z q * uti (fst proc) <= leitos_uti - Simplex.uti_usada st.
Proof.
  unfold Simplex.qtd_max. intros Hq Hpos Ho Ht Hu.
  destruct (floordiv _ (custo_r (fst proc))) as [mo | e] eqn:Eo;
    cbn [bind] in Hq; [| discriminate].
  destruct (truediv _ (tempo_h (fst proc))) as [mt | e] eqn:Et;
    cbn [bind] in Hq; [| discriminate].
  apply floordiv_ok in Eo. destruct Eo as [Hc0 Emo].
  apply truediv_ok in Et. destruct Et as [Ht0 Emt].
  pose proof (inject_Z_pos q Hpos) as H1.
  assert (Hmo : mo <= (orcamento - Simplex.orcamento_usado st)
                      / custo_r (fst proc)).
  { rewrite Emo. apply Qfloor_le. }
  assert (Hmt : mt <= (horas_sala - Simplex.tempo_usado st)
                      / tempo_h (fst proc)).
  { rewrite Emt. apply Qle_refl. }
  clear Emo Emt.
  destruct (Qlt_le_dec 0 (uti (fst proc))) as [Hup | Hun].
  - destruct (floordiv _ (uti (fst proc))) as [mu | e] eqn:Eu;
      cbn [bind] in Hq; [| discriminate].
    apply floordiv_ok in Eu. destruct Eu as [Hu0 Emu].
    assert (Hmu : mu <= (leitos_uti - Simplex.uti_usada st)
                        / uti (fst proc)).
    { rewrite Emu. apply Qfloor_le. }
    clear Emu.
    injection Hq as <-.
    pose proof (int_pos_le _ Hpos) as Hint.
    pose proof (min3_le_1 mo mt (Some mu)) as M1.
    pose proof (min3_le_2 mo mt (Some mu)) as M2.
    pose proof (min3_le_3 mo mt mu) as M3.
    unfold min3 in *.
    repeat split.
    + refine (proj2 (cabe _ _ _ Hc0 _ Hpos _)); lra.
    + refine (proj2 (cabe _ _ _ Ht0 _ Hpos _)); lra.
    + refine (proj2 (cabe _ _ _ Hu0 _ Hpos _)); lra.
  - cbn [bind] in Hq. injection Hq as <-.
    pose proof (int_pos_le _ Hpos) as Hint.
    pose proof (min3_le_1 mo mt None) as M1.
    pose proof (min3_le_2 mo mt None) as M2.
    unfold min3 in *.
    repeat split.
    + refine (proj2 (cabe _ _ _ Hc0 _ Hpos _)); lra.
    + refine (proj2 (cabe _ _ _ Ht0 _ Hpos _)); lra.
    + set (k := inject_Z (int (Qmin mo mt))) in *.
      assert (k * uti (fst proc) <= 0); [| lra].
      setoid_replace (k * uti (fst proc)) with (- (k * (- uti (fst proc))))
        by ring.
      assert (0 <= k * - uti (fst proc)); [| lra].
      apply Qmult_le_0_compat; lra.
Qed.

(** ** The whole loop *)

Lemma laco_total (rows : list (Proc * Q)) :
  Forall (fun r => ~ custo_r (fst r) == 0 /\ ~ tempo_h (fst r) == 0) rows ->
  forall st, exists st', laco rows st = Ok st'.
Proof.
  induction 1 as [| r rows [Hc Ht] _ IH]; intro st.
  - exists st. reflexivity.
  - destruct (qtd_max_total st r Hc Ht) as [q Hq].
    cbn [Simplex.laco]. unfold Simplex.passo.
    rewrite Hq. cbn [bind].
    destruct (0 <? q)%Z; cbn [bind]; apply IH.
Qed.

(** The loop assigns a non-negative quantity to every row it visits; the
    four running totals are the corresponding weighted sums, and no
    capacity that was respected on entry is exceeded on exit. *)
Lemma laco_aloc (rows : list (Proc * Q)) :
  forall st st',
  laco rows st = Ok st' ->
  Simplex.orcamento_usado st <= orcamento ->
  Simplex.tempo_usado st <= horas_sala ->
  Simplex.uti_usada st <= leitos_uti ->
  exists qs : list Z,
    List.length qs = List.length rows /\
    Forall (fun q => (0 <= q)%Z) qs /\
    Simplex.orcamento_usado st' ==
      Simplex.orcamento_usado st
      + Pulp.lpSum (map (fun r => custo_r (fst r)) rows) qs /\
    Simplex.tempo_usado st' ==
      Simplex.tempo_usado st
      + Pulp.lpSum (map (fun r => tempo_h (fst r)) rows) qs /\
    Simplex.uti_usada st' ==
      Simplex.uti_usada st
      + Pulp.lpSum (map (fun r => uti (fst r)) rows) qs /\
    Simplex.valor_objetivo st' ==
      Simplex.valor_objetivo st + Pulp.lpSum (map snd rows) qs /\
    Simplex.orcamento_usado st' <= orcamento /\
    Simplex.tempo_usado st' <= horas_sala /\
    Simplex.uti_usada st' <= leitos_uti.
Proof.
  induction rows as [| r rows IH]; intros st st' Hl Ho Ht Hu.
  - injection Hl as <-. exists []. cbn [Pulp.lpSum map List.length].
    repeat split; try (constructor || lra).
  - cbn [Simplex.laco] in Hl.
    destruct (Simplex.passo orcamento horas_sala leitos_uti st r)
      as [st1 | e] eqn:Ep; cbn [bind] in Hl; [| discriminate].
    apply passo_casos in Ep. destruct Ep as [q [Hq [[Hle ->] | [Hpos ->]]]].
    + destruct (IH _ _ Hl Ho Ht Hu)
        as [qs [Hlen [Hnn [E1 [E2 [E3 [E4 [B1 [B2 B3]]]]]]]]].
      exists (0%Z :: qs). cbn [Pulp.lpSum map List.length].
      repeat split; try assumption.
      * now rewrite Hlen.
      * constructor; [lia | assumption].
      * rewrite E1. change (inject_Z 0) with 0. ring.
      * rewrite E2. change (inject_Z 0) with 0. ring.
      * rewrite E3. change (inject_Z 0) with 0. ring.
      * rewrite E4. change (inject_Z 0) with 0. ring.
    + destruct (qtd_max_cabe st r q Hq Hpos Ho Ht Hu) as [C1 [C2 C3]].
      assert (Ho' : Simplex.orcamento_usado (Simplex.registra st r q)
                    <= orcamento) by (cbn; lra).
      assert (Ht' : Simplex.tempo_usado (Simplex.registra st r q)
                    <= horas_sala) by (cbn; lra).
      assert (Hu' : Simplex.uti_usada (Simplex.registra st r q)
                    <= leitos_uti) by (cbn; lra).
      destruct (IH _ _ Hl Ho' Ht' Hu')
        as [qs [Hlen [Hnn [E1 [E2 [E3 [E4 [B1 [B2 B3]]]]]]]]].
      exists (q :: qs). cbn [Pulp.lpSum map List.length].
      repeat split; try assumption.
      * now rewrite Hlen.
      * constructor; [lia | assumption].
      * rewrite E1. cbn. ring.
      * rewrite E2. cbn. ring.
      * rewrite E3. cbn. ring.
      * rewrite E4. cbn. ring.
Qed.

(** The entries appended to [solucao]: each is a positive quantity of a
    visited row, and the three resource totals advance by the sums of the
    entries' own totals. *)
Lemma laco_itens (rows : list (Proc * Q)) :
  forall st st',
  laco rows st = Ok st' ->
  exists novos : list Simplex.Item,
    Simplex.solucao st' = Simplex.solucao st ++ novos /\
    Forall (fun i => (0 < Simplex.Quantidade i)%Z /\
                     exists r, In r rows /\ item_de (fst r) i) novos /\
    Simplex.orcamento_usado st' ==
      Simplex.orcamento_usado st + total Simplex.Custo_Total_R novos /\
    Simplex.tempo_usado st' ==
      Simplex.tempo_usado st + total Simplex.Tempo_Total_h novos /\
    Simplex.uti_usada st' ==
      Simplex.uti_usada st + total Simplex.Leitos_UTI novos.
Proof.
  induction rows as [| r rows IH]; intros st st' Hl.
  - injection Hl as <-. exists []. rewrite app_nil_r. cbn [total fold_right].
    repeat split; try (constructor || lra).
  - cbn [Simplex.laco] in Hl.
    destruct (Simplex.passo orcamento horas_sala leitos_uti st r)
      as [st1 | e] eqn:Ep; cbn [bind] in Hl; [| discriminate].
    apply passo_casos in Ep. destruct Ep as [q [Hq [[Hle ->] | [Hpos ->]]]].
    + destruct (IH _ _ Hl) as [novos [Es [Hf [E1 [E2 E3]]]]].
      exists novos. repeat split; try assumption.
      eapply Forall_impl; [| exact Hf].
      intros i [Hi [r' [Hin Hit]]]. split; [exact Hi |].
      exists r'. split; [right; exact Hin | exact Hit].
    + destruct (IH _ _ Hl) as [novos [Es [Hf [E1 [E2 E3]]]]].
      cbn [Simplex.registra Simplex.solucao Simplex.orcamento_usado
           Simplex.tempo_usado Simplex.uti_usada] in Es, E1, E2, E3.
      rewrite <- app_assoc in Es. cbn [app] in Es.
      eexists. split; [exact Es |].
      cbn [total fold_right Simplex.Custo_Total_R Simplex.Tempo_Total_h
           Simplex.Leitos_UTI].
      repeat split.
      * constructor.
        -- split; [exact Hpos |]. exists r. split; [left; reflexivity |].
           repeat split.
        -- eapply Forall_impl; [| exact Hf].
           intros i [Hi [r' [Hin Hit]]]. split; [exact Hi |].
           exists r'. split; [right; exact Hin | exact Hit].
      * rewrite E1. fold (total Simplex.Custo_Total_R novos). ring.
      * rewrite E2. fold (total Simplex.Tempo_Total_h novos). ring.
      * rewrite E3. fold (total Simplex.Leitos_UTI novos). ring.
Qed.

End Passo.

(** ** Sorting only permutes the rows *)

Lemma inserir_perm (r : Proc * Q) (l : list (Proc * Q)) :
  Permutation (Simplex.inserir r l) (r :: l).
Proof.
  induction l as [| h t IH]; cbn [Simplex.inserir].
  - apply Permutation_refl.
  - destruct (Qle_bool (snd h) (snd r)).
    + apply Permutation_refl.
    + eapply perm_trans; [apply perm_skip, IH | apply perm_swap].
Qed.

Lemma sort_values_perm (l : list (Proc * Q)) :
  Permutation (Simplex.ordenar l) l.
Proof.
  induction l as [| r l IH]; cbn [Simplex.ordenar fold_right].
  - apply perm_nil.
  - eapply perm_trans; [apply inserir_perm |]. apply perm_skip, IH.
Qed.

(** ** Weighted sums over paired rows and quantities *)

Section Somas.

Context {A : Type}.

Lemma lpSum_perm (f : A -> Q) (al al' : list (A * Z)) :
  Permutation al al' ->
  Pulp.lpSum (map f (map fst al)) (map snd al)
  == Pulp.lpSum (map f (map fst al')) (map snd al').
Proof.
  induction 1 as [| a l l' _ IH | a b l | l1 l2 l3 _ IH1 _ IH2];
    cbn [map Pulp.lpSum].
  - reflexivity.
  - rewrite IH. reflexivity.
  - ring.
  - rewrite IH1. exact IH2.
Qed.

Lemma combine_fst_snd (al : list (A * Z)) :
  combine (map fst al) (map snd al) = al.
Proof.
  induction al as [| [a q] al IH]; cbn [map combine fst snd];
    [reflexivity | now rewrite IH].
Qed.

Lemma combine_proj {B : Type} (l : list A) :
  forall qs : list B, List.length qs = List.length l ->
  map fst (combine l qs) = l /\ map snd (combine l qs) = qs.
Proof.
  induction l as [| a l IH]; intros [| q qs] Hlen; try discriminate.
  - split; reflexivity.
  - cbn [combine map fst snd]. injection Hlen as Hlen.
    destruct (IH qs Hlen) as [-> ->]. split; reflexivity.
Qed.

(** Quantities given along a permutation of the rows can be carried back
    to the original order without changing any weighted sum. *)
Lemma realinha (l l' : list A) (qs' : list Z) :
  Permutation l' l -> List.length qs' = List.length l' ->
  Forall (fun q => (0 <= q)%Z) qs' ->
  exists qs : list Z,
    List.length qs = List.length l /\
    Forall (fun q => (0 <= q)%Z) qs /\
    forall f : A -> Q,
      Pulp.lpSum (map f l) qs == Pulp.lpSum (map f l') qs'.
Proof.
  intros Hp Hlen Hnn.
  destruct (combine_proj l' qs' Hlen) as [Ef Es].
  assert (Hp' : Permutation l (map fst (combine l' qs'))).
  { rewrite Ef. apply Permutation_sym, Hp. }
  destruct (Permutation_map_inv _ _ Hp') as [al [El Hal]].
  exists (map snd al). repeat split.
  - rewrite El. now rewrite !length_map.
  - apply (Permutation_map snd) in Hal. rewrite Es in Hal.
    eapply Permutation_Forall; [exact Hal | exact Hnn].
  - intro f. rewrite El. rewrite (lpSum_perm f al (combine l' qs')).
    + rewrite Ef, Es. reflexivity.
    + apply Permutation_sym, Hal.
Qed.

End Somas.

(** ** Feasible points of the program built by [otimizar_cirurgias_pulp] *)

Lemma limites_x (y : list Z) :
  forall k,
  forallb (fun vy => Qle_bool (Pulp.lowBound (fst vy)) (inject_Z (snd vy)))
    (combine (map (fun i => Pulp.mkVar
                     ("x_" ++ NilZero.string_of_uint (Nat.to_uint i)) 0
                     Pulp.LpInteger) (seq k (List.length y))) y) = true
  <-> Forall (fun q => (0 <= q)%Z) y.
Proof.
  induction y as [| q y IH]; intro k; cbn [List.length seq map combine forallb].
  - split; [constructor | reflexivity].
  - cbn [fst snd Pulp.lowBound]. rewrite andb_true_iff, IH, Qle_bool_iff.
    change 0 with (inject_Z 0). rewrite <- Zle_Qle.
    split.
    + intros [H1 H2]. constructor; assumption.
    + intro H. inversion H; subst. split; assumption.
Qed.

Lemma viavel_prob (d : DataFrame) (orcamento horas_sala leitos_uti : Q)
    (criterio : string) (y : list Z) :
  Pulp.viavel (Pulp.prob d orcamento horas_sala leitos_uti criterio) y = true
  <-> List.length y = List.length (linhas d) /\
      Forall (fun q => (0 <= q)%Z) y /\
      Pulp.lpSum (map custo_r (linhas d)) y <= orcamento /\
      Pulp.lpSum (map tempo_h (linhas d)) y <= horas_sala /\
      Pulp.lpSum (map uti (linhas d)) y <= leitos_uti.
Proof.
  unfold Pulp.viavel, Pulp.prob, Pulp.dentro_dos_limites, Pulp.satisfaz,
    Pulp.x.
  cbn [Pulp.variaveis Pulp.restricoes forallb Pulp.coefs Pulp.limite].
  rewrite !andb_true_iff, !Qle_bool_iff, Nat.eqb_eq, length_map, length_seq.
  split.
  - intros [[Hlen Hb] [H1 [H2 [H3 _]]]]. rewrite <- Hlen in Hb.
    apply limites_x in Hb. tauto.
  - intros [Hlen [Hb [H1 [H2 H3]]]]. rewrite <- Hlen.
    apply (limites_x y 0%nat) in Hb. tauto.
Qed.

(** ** The greedy heuristic as a whole *)

(** Both files select the weights by the same test. *)
Lemma w_coluna_peso (criterio : string) (rows : list Proc) :
  Pulp.w criterio rows = Simplex.coluna_peso criterio rows.
Proof. reflexivity. Qed.

Lemma length_pesos (criterio : string) (rows : list Proc) :
  List.length (Simplex.coluna_peso criterio rows) = List.length rows.
Proof.
  unfold Simplex.coluna_peso.
  destruct (String.eqb criterio "gravidade");
    [| destruct (String.eqb criterio "incidencia")];
    apply length_map.
Qed.

Lemma valido_sem_divisor_nulo (rows : list Proc) :
  catalogo_valido rows -> sem_divisor_nulo rows.
Proof.
  apply Forall_impl. intros p [Hc Ht]. split; lra.
Qed.

Lemma ordenadas_sem_divisor_nulo (rows : list Proc) (w : list Q) :
  sem_divisor_nulo rows ->
  Forall (fun r => ~ custo_r (fst r) == 0 /\ ~ tempo_h (fst r) == 0)
    (Simplex.ordenar (combine rows w)).
Proof.
  intro Hv.
  eapply Permutation_Forall; [apply Permutation_sym, sort_values_perm |].
  apply Forall_forall. intros [p q] Hin. apply in_combine_l in Hin.
  unfold sem_divisor_nulo in Hv. rewrite Forall_forall in Hv.
  exact (Hv p Hin).
Qed.

Lemma guloso_retorna (d : DataFrame) (orcamento horas_sala leitos_uti : Q)
    (criterio : string) :
  sem_divisor_nulo (linhas d) ->
  exists s m,
    fst (Simplex.resolver_simplex_guloso d orcamento horas_sala leitos_uti
           criterio) = Ok (s, m).
Proof.
  intro Hv.
  destruct (laco_total orcamento horas_sala leitos_uti _
              (ordenadas_sem_divisor_nulo _
                 (Simplex.coluna_peso criterio (linhas d)) Hv)
              Simplex.inicio) as [st Hst].
  unfold Simplex.resolver_simplex_guloso.
  cbn [fst set_peso linhas peso Simplex.sort_values bind].
  rewrite Hst. cbn [bind]. eexists. eexists. reflexivity.
Qed.

Lemma guloso_inv (d : DataFrame) (orcamento horas_sala leitos_uti : Q)
    (criterio : string) (s : list Simplex.Item) (m : Simplex.Metricas) :
  fst (Simplex.resolver_simplex_guloso d orcamento horas_sala leitos_uti
         criterio) = Ok (s, m) ->
  exists st,
    Simplex.laco orcamento horas_sala leitos_uti
      (Simplex.ordenar
         (combine (linhas d) (Simplex.coluna_peso criterio (linhas d))))
      Simplex.inicio = Ok st /\
    s = Simplex.solucao st /\
    Simplex.m_valor_objetivo m = Simplex.valor_objetivo st /\
    Simplex.m_orcamento_usado m = Simplex.orcamento_usado st /\
    Simplex.m_tempo_usado m = Simplex.tempo_usado st /\
    Simplex.m_uti_usada m = Simplex.uti_usada st /\
    Simplex.m_total_cirurgias m = Simplex.soma_quantidade s.
Proof.
  unfold Simplex.resolver_simplex_guloso.
  cbn [fst set_peso linhas peso Simplex.sort_values bind].
  destruct (Simplex.laco _ _ _ _ _) as [st | e]; cbn [bind];
    [| discriminate].
  intro H. injection H as <- <-. exists st. repeat split.
Qed.

(** With non-negative capacities, what the heuristic returns is a feasible
    point of the integer program built on the same input, with the same
    objective value and the same resource totals. *)
Lemma guloso_viavel (d : DataFrame) (orcamento horas_sala leitos_uti : Q)
    (criterio : string) (s : list Simplex.Item) (m : Simplex.Metricas) :
  0 <= orcamento -> 0 <= horas_sala -> 0 <= leitos_uti ->
  fst (Simplex.resolver_simplex_guloso d orcamento horas_sala leitos_uti
         criterio) = Ok (s, m) ->
  exists y,
    Pulp.viavel (Pulp.prob d orcamento horas_sala leitos_uti criterio) y
      = true /\
    Pulp.valor (Pulp.prob d orcamento horas_sala leitos_uti criterio) y
      == Simplex.m_valor_objetivo m /\
    Simplex.m_orcamento_usado m == Pulp.lpSum (map custo_r (linhas d)) y /\
    Simplex.m_tempo_usado m == Pulp.lpSum (map tempo_h (linhas d)) y /\
    Simplex.m_uti_usada m == Pulp.lpSum (map uti (linhas d)) y.
Proof.
  intros HB HH HL Hr.
  apply guloso_inv in Hr.
  destruct Hr as [st [Hst [-> [-> [-> [-> [-> _]]]]]]].
  set (w := Simplex.coluna_peso criterio (linhas d)) in *.
  set (rows := combine (linhas d) w) in *.
  set (ord := Simplex.ordenar rows) in *.
  pose proof (length_pesos criterio (linhas d)) as Hlw. fold w in Hlw.
  destruct (combine_proj (linhas d) w Hlw) as [Ef Es]. fold rows in Ef, Es.
  destruct (laco_aloc _ _ _ ord _ _ Hst HB HH HL)
    as [qs [Hlen [Hnn [E1 [E2 [E3 [E4 [B1 [B2 B3]]]]]]]]].
  cbn [Simplex.inicio Simplex.orcamento_usado Simplex.tempo_usado
       Simplex.uti_usada Simplex.valor_objetivo] in E1, E2, E3, E4.
  destruct (realinha rows ord qs (sort_values_perm rows) Hlen Hnn)
    as [y [Hly [Hy Hsum]]].
  pose proof (Hsum (fun r => custo_r (fst r))) as S1.
  pose proof (Hsum (fun r => tempo_h (fst r))) as S2.
  pose proof (Hsum (fun r => uti (fst r))) as S3.
  pose proof (Hsum snd) as S4.
  rewrite <- (map_map fst custo_r), Ef in S1.
  rewrite <- (map_map fst tempo_h), Ef in S2.
  rewrite <- (map_map fst uti), Ef in S3.
  rewrite Es in S4.
  exists y. split.
  { apply viavel_prob. unfold rows in Hly. rewrite length_combine in Hly.
    rewrite Hlw, Nat.min_id in Hly.
    repeat split; try assumption.
    - rewrite S1. lra.
    - rewrite S2. lra.
    - rewrite S3. lra. }
  split.
  { unfold Pulp.valor, Pulp.prob. cbn [Pulp.objetivo].
    rewrite w_coluna_peso. fold w. rewrite S4. lra. }
  repeat split; lra.
Qed.

(** The entries of the returned plan: positive quantities of rows of the
    table, whose own totals add up to the three totals of [metricas]. *)
Lemma guloso_plano (d : DataFrame) (orcamento horas_sala leitos_uti : Q)
    (criterio : string) (s : list Simplex.Item) (m : Simplex.Metricas) :
  fst (Simplex.resolver_simplex_guloso d orcamento horas_sala leitos_uti
         criterio) = Ok (s, m) ->
  Forall (fun i => (0 < Simplex.Quantidade i)%Z /\
                   exists p, In p (linhas d) /\ item_de p i) s /\
  Simplex.m_orcamento_usado m == total Simplex.Custo_Total_R s /\
  Simplex.m_tempo_usado m == total Simplex.Tempo_Total_h s /\
  Simplex.m_uti_usada m == total Simplex.Leitos_UTI s.
Proof.
  intro Hr. apply guloso_inv in Hr.
  destruct Hr as [st [Hst [-> [_ [-> [-> [-> _]]]]]]].
  destruct (laco_itens _ _ _ _ _ _ Hst) as [novos [Sn [Hf [T1 [T2 T3]]]]].
  cbn [Simplex.inicio Simplex.orcamento_usado Simplex.tempo_usado
       Simplex.uti_usada Simplex.solucao app] in Sn, T1, T2, T3.
  rewrite Sn. repeat split; try lra.
  eapply Forall_impl; [| exact Hf].
  intros i [Hi [r [Hin Hit]]]. split; [exact Hi |].
  exists (fst r). split; [| exact Hit].
  apply (Permutation_in _ (sort_values_perm _)) in Hin.
  destruct r as [p q]. apply in_combine_l in Hin. exact Hin.
Qed.

(** ** The fictitious case *)

Lemma inject_Z_nonneg (q : Z) : (0 <= q)%Z -> 0 <= inject_Z q.
Proof. intro H. change 0 with (inject_Z 0). now rewrite <- Zle_Qle. Qed.

(** Every feasible point of the fictitious case is a triple of
    non-negative integers within the room hours and the ICU bed. *)
Lemma viavel_didatico (orcamento horas_sala leitos_uti : Q) (z : list Z) :
  Pulp.viavel (Pulp.prob didatico orcamento horas_sala leitos_uti
                 "gravidade") z = true ->
  exists a b c : Z,
    z = [a; b; c] /\ 0 <= inject_Z a /\ 0 <= inject_Z b /\ 0 <= inject_Z c /\
    6 * inject_Z a + 3 * inject_Z b + 2 * inject_Z c <= horas_sala /\
    inject_Z a + inject_Z b <= leitos_uti.
Proof.
  intro Hz. apply viavel_prob in Hz.
  destruct Hz as [Hlen [Hnn [_ [Ht Hu]]]].
  destruct z as [| a [| b [| c [| ? ?]]]]; try discriminate.
  exists a, b, c.
  inversion Hnn as [| ? ? Ha Hnn1]; subst.
  inversion Hnn1 as [| ? ? Hb Hnn2]; subst.
  inversion Hnn2 as [| ? ? Hc _]; subst.
  apply inject_Z_nonneg in Ha, Hb, Hc.
  cbn [didatico linhas map tempo_h uti Pulp.lpSum] in Ht, Hu.
  repeat split; try assumption; lra.
Qed.

Lemma valor_didatico (orcamento horas_sala leitos_uti : Q) (a b c : Z) :
  Pulp.valor (Pulp.prob didatico orcamento horas_sala leitos_uti
                "gravidade") [a; b; c]
  == 10 * inject_Z a + 8 * inject_Z b + 6 * inject_Z c.
Proof.
  unfold Pulp.valor, Pulp.prob, Pulp.w.
  cbn [String.eqb Ascii.eqb Bool.eqb Pulp.objetivo didatico linhas map
       gravidade Pulp.lpSum].
  ring.
Qed.

(** Three units of the third procedure are optimal whenever the room has
    6 hours, whatever the number of ICU beds and the budget that make
    them feasible. *)
Lemma didatico_otimo (orcamento leitos_uti : Q) :
  36000 <= orcamento -> 0 <= leitos_uti ->
  Pulp.otimo (Pulp.prob didatico orcamento 6 leitos_uti "gravidade")
    [0; 0; 3]%Z.
Proof.
  intros HB HL. split.
  - apply viavel_prob.
    cbn [didatico linhas map custo_r tempo_h uti Pulp.lpSum List.length].
    repeat split.
    + repeat constructor; lia.
    + change (inject_Z 0) with 0. change (inject_Z 3) with 3. lra.
    + change (inject_Z 0) with 0. change (inject_Z 3) with 3. lra.
    + change (inject_Z 0) with 0. change (inject_Z 3) with 3. lra.
  - intros z Hz.
    destruct (viavel_didatico _ _ _ z Hz)
      as [a [b [c [-> [Ha [Hb [Hc [Ht Hu]]]]]]]].
    rewrite !valor_didatico.
    change (inject_Z 0) with 0. change (inject_Z 3) with 3. lra.
Qed.

(** C2, as stated, fails: in the fictitious case one unit of the first
    procedure is not an optimum of the integer program, and one unit each
    of the second and third procedures needs a single ICU bed, so it
    satisfies the ICU constraint (and every other one) with a larger
    objective value. *)
Lemma caso_didatico_counterexample :
  ~ Pulp.otimo prob_didatico [1; 0; 0]%Z /\
  Pulp.lpSum (map uti (linhas didatico)) [0; 1; 1]%Z <= 1 /\
  Pulp.viavel prob_didatico [0; 1; 1]%Z = true /\
  Pulp.valor prob_didatico [1; 0; 0]%Z
    < Pulp.valor prob_didatico [0; 1; 1]%Z.
Proof.
  assert (Hv : Pulp.viavel prob_didatico [0; 1; 1]%Z = true)
    by (vm_compute; reflexivity).
  assert (Hlt : Pulp.valor prob_didatico [1; 0; 0]%Z
                < Pulp.valor prob_didatico [0; 1; 1]%Z)
    by (vm_compute; reflexivity).
  repeat split; try assumption.
  - intros [_ Hmax]. specialize (Hmax _ Hv). lra.
  - vm_compute. discriminate.
Qed.

(** C2 (amended): in the fictitious case the unique optimum of the integer
    program is three units of the third procedure, with objective value
    18; one unit of the first procedure is feasible with value 10, and one
    unit each of the second and third is feasible with value 14, using 5
    room hours and exactly the one ICU bed. *)
Theorem caso_didatico :
  Pulp.otimo prob_didatico [0; 0; 3]%Z /\
  Pulp.valor prob_didatico [0; 0; 3]%Z == 18 /\
  (forall z, Pulp.otimo prob_didatico z -> z = [0; 0; 3]%Z) /\
  Pulp.viavel prob_didatico [1; 0; 0]%Z = true /\
  Pulp.valor prob_didatico [1; 0; 0]%Z == 10 /\
  Pulp.viavel prob_didatico [0; 1; 1]%Z = true /\
  Pulp.valor prob_didatico [0; 1; 1]%Z == 14 /\
  Pulp.lpSum (map tempo_h (linhas didatico)) [0; 1; 1]%Z == 5 /\
  Pulp.lpSum (map uti (linhas didatico)) [0; 1; 1]%Z == 1.
Proof.
  assert (Hopt : Pulp.otimo prob_didatico [0; 0; 3]%Z)
    by (apply didatico_otimo; lra).
  split; [exact Hopt |].
  split; [vm_compute; reflexivity |].
  split.
  { intros z [Hz Hmax].
    pose proof (Hmax _ (proj1 Hopt)) as Hge.
    destruct (viavel_didatico _ _ _ z Hz)
      as [a [b [c [-> [Ha [Hb [Hc [Ht Hu]]]]]]]].
    unfold prob_didatico in Hge. rewrite !valor_didatico in Hge.
    change (inject_Z 0) with 0 in Hge. change (inject_Z 3) with 3 in Hge.
    assert (Ea : inject_Z a == inject_Z 0) by (change (inject_Z 0) with 0; lra).
    assert (Eb : inject_Z b == inject_Z 0) by (change (inject_Z 0) with 0; lra).
    assert (Ec : inject_Z c == inject_Z 3) by (change (inject_Z 3) with 3; lra).
    apply (proj1 (inject_Z_injective _ _)) in Ea.
    apply (proj1 (inject_Z_injective _ _)) in Eb.
    apply (proj1 (inject_Z_injective _ _)) in Ec.
    now subst. }
  repeat split; vm_compute; reflexivity.
Qed.




(** ** Sums of non-negative terms *)

Lemma lpSum_nonneg (c : list Q) :
  forall y : list Z,
  Forall (fun ci => 0 <= ci) c -> Forall (fun q => (0 <= q)%Z) y ->
  0 <= Pulp.lpSum c y.
Proof.
  induction c as [| ci c IH]; intros [| q y] Hc Hy; cbn [Pulp.lpSum];
    try apply Qle_refl.
  inversion Hc; subst. inversion Hy; subst.
  assert (0 <= ci * inject_Z q)
    by (apply Qmult_le_0_compat; [assumption | now apply inject_Z_nonneg]).
  assert (0 <= Pulp.lpSum c y) by (apply IH; assumption).
  lra.
Qed.

Lemma lpSum_zeros (c : list Q) :
  forall n, Pulp.lpSum c (repeat 0%Z n) == 0.
Proof.
  induction c as [| ci c IH]; intros [| n]; cbn [repeat Pulp.lpSum];
    try reflexivity.
  rewrite IH. change (inject_Z 0) with 0. ring.
Qed.

Lemma Forall_zeros (n : nat) : Forall (fun q => (0 <= q)%Z) (repeat 0%Z n).
Proof. induction n; cbn [repeat]; constructor; [lia | assumption]. Qed.

(** The all-zero vector is feasible exactly when no capacity is negative. *)
Lemma zero_viavel (d : DataFrame) (orcamento horas_sala leitos_uti : Q)
    (criterio : string) :
  0 <= orcamento -> 0 <= horas_sala -> 0 <= leitos_uti ->
  Pulp.viavel (Pulp.prob d orcamento horas_sala leitos_uti criterio)
    (repeat 0%Z (List.length (linhas d))) = true.
Proof.
  intros HB HH HL. apply viavel_prob.
  rewrite repeat_length, !lpSum_zeros.
  repeat split; try assumption. apply Forall_zeros.
Qed.

(** For a valid catalog with 0/1 ICU flags, a feasible point exists only
    if no capacity is negative. *)
Lemma viavel_capacidades (d : DataFrame)
    (orcamento horas_sala leitos_uti : Q) (criterio : string) (y : list Z) :
  catalogo_valido (linhas d) -> uti_binaria (linhas d) ->
  Pulp.viavel (Pulp.prob d orcamento horas_sala leitos_uti criterio) y
    = true ->
  0 <= orcamento /\ 0 <= horas_sala /\ 0 <= leitos_uti.
Proof.
  intros Hv Hu Hy. apply viavel_prob in Hy.
  destruct Hy as [_ [Hnn [C1 [C2 C3]]]].
  assert (P1 : 0 <= Pulp.lpSum (map custo_r (linhas d)) y).
  { apply lpSum_nonneg; [| exact Hnn]. apply Forall_map.
    eapply Forall_impl; [| exact Hv]. intros p [H1 _]. cbn. lra. }
  assert (P2 : 0 <= Pulp.lpSum (map tempo_h (linhas d)) y).
  { apply lpSum_nonneg; [| exact Hnn]. apply Forall_map.
    eapply Forall_impl; [| exact Hv]. intros p [_ H2]. cbn. lra. }
  assert (P3 : 0 <= Pulp.lpSum (map uti (linhas d)) y).
  { apply lpSum_nonneg; [| exact Hnn]. apply Forall_map.
    eapply Forall_impl; [| exact Hu]. intros p [H | H]; cbn; lra. }
  repeat split; lra.
Qed.

(** With strictly positive costs the budget alone bounds the objective. *)
Lemma lpSum_cota (c : list Q) :
  forall (w : list Q) (y : list Z) (orcamento : Q),
  Forall (fun ci => 0 < ci) c ->
  Forall (fun q => (0 <= q)%Z) y ->
  List.length w = List.length c ->
  Pulp.lpSum c y <= orcamento ->
  Pulp.lpSum w y <= cota w c orcamento.
Proof.
  induction c as [| ci c IH]; intros [| wi w] [| q y] B Hc Hy Hlen Hle;
    try discriminate; cbn [Pulp.lpSum cota] in *; try apply Qle_refl.
  - (* no quantity left: the bound is a sum of non-negative terms *)
    inversion Hc; subst. injection Hlen as Hlen.
    assert (Hrest : Pulp.lpSum w [] <= cota w c B).
    { apply (IH w [] B); [assumption | constructor | assumption |].
      destruct c; exact Hle. }
    assert (0 <= Qabs wi * (B / ci)).
    { apply Qmult_le_0_compat; [apply Qabs_nonneg |].
      apply Qle_shift_div_l; [assumption | lra]. }
    assert (E : Pulp.lpSum w [] == 0) by (destruct w; reflexivity).
    lra.
  - inversion Hc; subst. inversion Hy; subst. injection Hlen as Hlen.
    assert (Hq : 0 <= inject_Z q) by now apply inject_Z_nonneg.
    assert (Hcq : 0 <= ci * inject_Z q)
      by (apply Qmult_le_0_compat; lra).
    assert (Hrest0 : 0 <= Pulp.lpSum c y).
    { apply lpSum_nonneg; [| assumption].
      eapply Forall_impl; [| eassumption]. intros; cbn in *; lra. }
    assert (Hrest : Pulp.lpSum w y <= cota w c B)
      by (apply IH; try assumption; lra).
    assert (Hdiv : inject_Z q <= B / ci).
    { apply Qle_shift_div_l; [assumption |]. lra. }
    assert (Hw1 : wi * inject_Z q <= Qabs wi * inject_Z q).
    { apply Qmult_le_compat_r; [apply Qle_Qabs | exact Hq]. }
    assert (Hw2 : Qabs wi * inject_Z q <= Qabs wi * (B / ci)).
    { rewrite (Qmult_comm (Qabs wi) (inject_Z q)),
        (Qmult_comm (Qabs wi) (B / ci)).
      apply Qmult_le_compat_r; [exact Hdiv | apply Qabs_nonneg]. }
    lra.
Qed.

(** ** Status of the exact solve *)

(** On an [Optimal] status the function does not reach its [return]: the
    extraction of the report raises. *)
Lemma otimizar_optimal_levanta (cbc : Pulp.LpProblem -> Pulp.LpStatus * list Z)
    (d : DataFrame) (orcamento horas_sala leitos_uti : Q)
    (criterio : string) :
  fst (cbc (Pulp.prob d orcamento horas_sala leitos_uti criterio))
  = Pulp.Optimal ->
  exists e,
    fst (Pulp.otimizar_cirurgias_pulp cbc d orcamento horas_sala leitos_uti
           criterio) = Levanta e.
Proof.
  intro Hst. unfold Pulp.otimizar_cirurgias_pulp. cbn [fst]. rewrite Hst.
  destruct (linhas d); eexists; reflexivity.
Qed.

(** C3, as stated, fails on its last clause: on the reference table, which
    has strictly positive costs and durations, and with the non-negative
    envelope (10000, 480, 15), whose budget is below the cheapest
    procedure, the scenario loop of the greedy path reports that no viable
    solution was found and stores an empty result. *)
Lemma nunca_inviavel_counterexample :
  catalogo_valido (linhas df) /\
  fst (Simplex.turno_cenario df
         (Simplex.mkCenario "Orcamento minimo" 10000 480 15 "gravidade"))
  = Ok (Simplex.NenhumaSolucaoViavel, None).
Proof.
  split.
  - repeat constructor.
  - vm_compute. reflexivity.
Qed.

(** C3 (amended): for every table and every envelope whose three
    capacities are non-negative, the all-zero vector satisfies the three
    constraints with objective value 0, so the exact solve never returns
    status Infeasible.  The scenario loop of the greedy path reports the
    absence of a viable solution exactly when the greedy plan is empty,
    that is, when no procedure fits. *)
Theorem nunca_inviavel (d : DataFrame)
    (orcamento horas_sala leitos_uti : Q) (criterio : string) :
  0 <= orcamento -> 0 <= horas_sala -> 0 <= leitos_uti ->
  let p := Pulp.prob d orcamento horas_sala leitos_uti criterio in
  let zero := repeat 0%Z (List.length (linhas d)) in
  Pulp.viavel p zero = true /\
  Pulp.valor p zero == 0 /\
  (forall r, Pulp.contrato_cbc p r -> fst r <> Pulp.Infeasible) /\
  (forall nome,
     fst (Simplex.turno_cenario d
            (Simplex.mkCenario nome orcamento horas_sala leitos_uti
               criterio))
     = Ok (Simplex.NenhumaSolucaoViavel, None)
     <-> exists m,
           fst (Simplex.resolver_simplex_guloso d orcamento horas_sala
                  leitos_uti criterio) = Ok ([], m)).
Proof.
  intros HB HH HL p zero.
  assert (Hz : Pulp.viavel p zero = true) by (apply zero_viavel; assumption).
  split; [exact Hz |].
  split; [apply lpSum_zeros |].
  split.
  - intros [st y] Hc Hst. cbn [fst] in Hst. subst st.
    unfold Pulp.contrato_cbc in Hc. cbn [fst] in Hc.
    rewrite (Hc zero) in Hz. discriminate.
  - intro nome. unfold Simplex.turno_cenario, copy.
    cbn [Simplex.orcamento Simplex.horas_sala Simplex.leitos_uti
         Simplex.prioridade].
    destruct (Simplex.resolver_simplex_guloso d orcamento horas_sala
                leitos_uti criterio) as [[[s m] | e] d'];
      cbn [fst bind].
    + destruct s as [| i s].
      * split; [intros _; exists m; reflexivity | reflexivity].
      * split.
        -- destruct (truediv _ horas_sala); cbn [bind]; [| discriminate].
           destruct (truediv _ orcamento); cbn [bind]; [| discriminate].
           destruct (truediv _ leitos_uti); cbn [bind]; discriminate.
        -- intros [m' Hm]. discriminate.
    + split; [discriminate | intros [m' Hm]; discriminate].
Qed.

Lemma nunca_inviavel_witness :
  Pulp.viavel (Pulp.prob df 500000 480 15 "incidencia")
    (repeat 0%Z 8) = true.
Proof.
  refine (proj1 (nunca_inviavel df 500000 480 15 "incidencia" _ _ _));
    unfold Qle; simpl; lia.
Defined.

(** C8: when every unit cost and duration is strictly positive (budget and
    room hours being the finite numbers they are), the objective values of
    the feasible points of the integer program are bounded above, so the
    exact solve cannot return status Unbounded. *)
Theorem nunca_ilimitado (d : DataFrame)
    (orcamento horas_sala leitos_uti : Q) (criterio : string) :
  catalogo_valido (linhas d) ->
  let p := Pulp.prob d orcamento horas_sala leitos_uti criterio in
  (exists M : Q, forall y, Pulp.viavel p y = true -> Pulp.valor p y <= M) /\
  (forall r, Pulp.contrato_cbc p r -> fst r <> Pulp.Unbounded).
Proof.
  intros Hv p.
  assert (Hb : forall y, Pulp.viavel p y = true ->
                 Pulp.valor p y
                 <= cota (Pulp.w criterio (linhas d))
                      (map custo_r (linhas d)) orcamento).
  { intros y Hy. apply viavel_prob in Hy.
    destruct Hy as [_ [Hnn [C1 _]]].
    unfold Pulp.valor, p, Pulp.prob. cbn [Pulp.objetivo].
    apply lpSum_cota; try assumption.
    - apply Forall_map. eapply Forall_impl; [| exact Hv].
      intros q [H1 _]. exact H1.
    - rewrite w_coluna_peso, length_pesos, length_map. reflexivity. }
  split.
  - eexists. exact Hb.
  - intros [st y] Hc Hst. cbn [fst] in Hst. subst st.
    unfold Pulp.contrato_cbc in Hc. cbn [fst] in Hc.
    destruct (Hc (cota (Pulp.w criterio (linhas d))
                    (map custo_r (linhas d)) orcamento))
      as [z [Hz Hlt]].
    specialize (Hb z Hz). lra.
Qed.

Lemma nunca_ilimitado_witness :
  catalogo_valido (linhas df) /\
  exists M : Q,
    forall y,
      Pulp.viavel (Pulp.prob df 500000 480 15 "incidencia") y = true ->
      Pulp.valor (Pulp.prob df 500000 480 15 "incidencia") y <= M.
Proof.
  assert (Hv : catalogo_valido (linhas df)) by (repeat constructor).
  split; [exact Hv |].
  exact (proj1 (nunca_ilimitado df 500000 480 15 "incidencia" Hv)).
Defined.

(** C5: for every table and criterion, raising a single one of the three
    capacities while the other two stay fixed does not lower the optimal
    objective value of the exact solve. *)
Theorem monotonia (d : DataFrame) (criterio : string)
    (orcamento horas_sala leitos_uti orcamento' horas_sala' leitos_uti' : Q)
    (r r' : Pulp.LpStatus * list Z) :
  (orcamento <= orcamento' /\ horas_sala == horas_sala'
     /\ leitos_uti == leitos_uti') \/
  (orcamento == orcamento' /\ horas_sala <= horas_sala'
     /\ leitos_uti == leitos_uti') \/
  (orcamento == orcamento' /\ horas_sala == horas_sala'
     /\ leitos_uti <= leitos_uti') ->
  Pulp.contrato_cbc
    (Pulp.prob d orcamento horas_sala leitos_uti criterio) r ->
  fst r = Pulp.Optimal ->
  Pulp.contrato_cbc
    (Pulp.prob d orcamento' horas_sala' leitos_uti' criterio) r' ->
  fst r' = Pulp.Optimal ->
  Pulp.valor (Pulp.prob d orcamento horas_sala leitos_uti criterio) (snd r)
  <= Pulp.valor (Pulp.prob d orcamento' horas_sala' leitos_uti' criterio)
       (snd r').
Proof.
  intros Hcap Hc Hst Hc' Hst'.
  destruct r as [st y], r' as [st' y']. cbn [fst snd] in *. subst st st'.
  unfold Pulp.contrato_cbc in Hc, Hc'. cbn [fst snd] in Hc, Hc'.
  destruct Hc as [Hy _]. destruct Hc' as [_ Hmax].
  assert (Hy' : Pulp.viavel
                  (Pulp.prob d orcamento' horas_sala' leitos_uti' criterio)
                  y = true).
  { apply viavel_prob in Hy. apply viavel_prob.
    destruct Hy as [Hlen [Hnn [C1 [C2 C3]]]].
    repeat split; try assumption;
      destruct Hcap as [[? [? ?]] | [[? [? ?]] | [? [? ?]]]]; lra. }
  exact (Hmax y Hy').
Qed.

Lemma monotonia_witness :
  Pulp.valor (Pulp.prob didatico 500000 6 1 "gravidade") [0; 0; 3]%Z
  <= Pulp.valor (Pulp.prob didatico 500000 6 2 "gravidade") [0; 0; 3]%Z.
Proof.
  refine (monotonia didatico "gravidade" 500000 6 1 500000 6 2
            (Pulp.Optimal, [0; 0; 3]%Z) (Pulp.Optimal, [0; 0; 3]%Z)
            _ _ eq_refl _ eq_refl).
  - right. right. repeat split; unfold Qle, Qeq; simpl; lia.
  - apply (didatico_otimo 500000 1); unfold Qle; simpl; lia.
  - apply (didatico_otimo 500000 2); unfold Qle; simpl; lia.
Defined.

(** ** Exact solve against the heuristic *)

Lemma dominancia_capacidades (d : DataFrame)
    (orcamento horas_sala leitos_uti : Q) (criterio : string)
    (r : Pulp.LpStatus * list Z) (s : list Simplex.Item)
    (m : Simplex.Metricas) :
  0 <= orcamento -> 0 <= horas_sala -> 0 <= leitos_uti ->
  Pulp.contrato_cbc
    (Pulp.prob d orcamento horas_sala leitos_uti criterio) r ->
  fst r = Pulp.Optimal ->
  fst (Simplex.resolver_simplex_guloso d orcamento horas_sala leitos_uti
         criterio) = Ok (s, m) ->
  Simplex.m_valor_objetivo m
  <= Pulp.valor (Pulp.prob d orcamento horas_sala leitos_uti criterio)
       (snd r).
Proof.
  intros HB HH HL Hc Hst Hr.
  destruct r as [st x0]. cbn [fst snd] in *. subst st.
  unfold Pulp.contrato_cbc in Hc. cbn [fst snd] in Hc.
  destruct Hc as [_ Hmax].
  destruct (guloso_viavel _ _ _ _ _ _ _ HB HH HL Hr) as [y [Hy [Ev _]]].
  rewrite <- Ev. apply Hmax. exact Hy.
Qed.




(** ** Negative capacities *)

Lemma div_neg (a c : Q) : a < 0 -> 0 < c -> a / c < 0.
Proof. intros Ha Hc. apply Qlt_shift_div_r; [exact Hc | lra]. Qed.

(** With a negative budget or negative room hours no row of a valid
    catalog is ever selected. *)
Lemma passo_negativo (orcamento horas_sala leitos_uti : Q) (r : Proc * Q) :
  orcamento < 0 \/ horas_sala < 0 ->
  0 < custo_r (fst r) -> 0 < tempo_h (fst r) ->
  Simplex.passo orcamento horas_sala leitos_uti Simplex.inicio r
  = Ok Simplex.inicio.
Proof.
  intros Hneg Hc Ht.
  unfold Simplex.passo, Simplex.qtd_max.
  rewrite floordiv_total by lra. cbn [bind].
  rewrite truediv_total by lra. cbn [bind].
  cbn [Simplex.inicio Simplex.orcamento_usado Simplex.tempo_usado
       Simplex.uti_usada].
  set (mo := inject_Z (Qfloor ((orcamento - 0) / custo_r (fst r)))).
  set (mt := (horas_sala - 0) / tempo_h (fst r)).
  assert (Hmo : mo <= (orcamento - 0) / custo_r (fst r))
    by apply Qfloor_le.
  assert (Hmin : Qmin mo mt < 1).
  { pose proof (Q.le_min_l mo mt). pose proof (Q.le_min_r mo mt).
    destruct Hneg as [HB | HH].
    - assert ((orcamento - 0) / custo_r (fst r) < 0)
        by (apply div_neg; lra).
      lra.
    - assert (mt < 0) by (apply div_neg; lra).
      lra. }
  destruct (Qlt_le_dec 0 (uti (fst r))) as [Hu | Hu].
  - rewrite floordiv_total by lra. cbn [bind min3].
    match goal with |- context [int ?q] =>
      assert (Hq : (int q <= 0)%Z)
        by (apply int_small; pose proof (Q.le_min_l (Qmin mo mt)
              (inject_Z (Qfloor ((leitos_uti - 0) / uti (fst r))))); lra)
    end.
    apply Z.ltb_ge in Hq. rewrite Hq. reflexivity.
  - cbn [bind min3].
    assert (Hq : (int (Qmin mo mt) <= 0)%Z) by (apply int_small; exact Hmin).
    apply Z.ltb_ge in Hq. rewrite Hq. reflexivity.
Qed.

Lemma laco_negativo (orcamento horas_sala leitos_uti : Q)
    (rows : list (Proc * Q)) :
  orcamento < 0 \/ horas_sala < 0 ->
  Forall (fun r => 0 < custo_r (fst r) /\ 0 < tempo_h (fst r)) rows ->
  Simplex.laco orcamento horas_sala leitos_uti rows Simplex.inicio
  = Ok Simplex.inicio.
Proof.
  intro Hneg. induction 1 as [| r rows [Hc Ht] _ IH].
  - reflexivity.
  - cbn [Simplex.laco]. rewrite (passo_negativo _ _ _ r Hneg Hc Ht).
    cbn [bind]. exact IH.
Qed.




(** ** The table across a call *)

(** C6, as stated, fails for the greedy heuristic: the table it is given
    comes back with the column ['peso'] added. *)
Lemma catalogo_intacto_counterexample :
  snd (Simplex.resolver_simplex_guloso df 500000 480 15 "incidencia") <> df
  /\ peso df = None
  /\ peso (snd (Simplex.resolver_simplex_guloso df 500000 480 15
                  "incidencia"))
     = Some (map incidencia_pe procedimentos).
Proof.
  split; [| split].
  - intro H. apply (f_equal peso) in H. discriminate.
  - reflexivity.
  - reflexivity.
Qed.

(** C6 (amended): the exact solve leaves the table it is given exactly as
    it was, whatever the solver answers.  The greedy heuristic assigns the
    column ['peso'] of the table it is given (creating or overwriting it,
    also when the call ends in an exception) and changes no row and no
    other column; the scenario loop hands it a copy, so the module-level
    table is the same after every turn. *)
Theorem catalogo_intacto (d : DataFrame)
    (orcamento horas_sala leitos_uti : Q) (criterio : string) :
  (forall cbc,
     snd (Pulp.otimizar_cirurgias_pulp cbc d orcamento horas_sala
            leitos_uti criterio) = d) /\
  snd (Simplex.resolver_simplex_guloso d orcamento horas_sala leitos_uti
         criterio)
  = set_peso d (Simplex.coluna_peso criterio (linhas d)) /\
  linhas (snd (Simplex.resolver_simplex_guloso d orcamento horas_sala
                 leitos_uti criterio)) = linhas d /\
  (forall nome,
     snd (Simplex.turno_cenario d
            (Simplex.mkCenario nome orcamento horas_sala leitos_uti
               criterio)) = d).
Proof.
  repeat split.
Qed.

(** ** Weights *)

(** C9: under the cost-efficiency criterion the weight of every procedure
    is its severity divided by its unit cost, times 10000; under the
    severity criterion it is the severity and under the incidence
    criterion the incidence rate.  Both files compute exactly these
    weights: they are the objective coefficients of the exact solve, and
    the column ['peso'] the heuristic sorts and scores by. *)
Theorem pesos_por_criterio (c : ObjectiveCriterion) (d : DataFrame)
    (orcamento horas_sala leitos_uti : Q) :
  Pulp.w (tag_pulp c) (linhas d) = map (peso_especificado c) (linhas d) /\
  Simplex.coluna_peso (tag_simplex c) (linhas d)
  = map (peso_especificado c) (linhas d) /\
  Pulp.objetivo (Pulp.prob d orcamento horas_sala leitos_uti (tag_pulp c))
  = map (peso_especificado c) (linhas d) /\
  peso (snd (Simplex.resolver_simplex_guloso d orcamento horas_sala
               leitos_uti (tag_simplex c)))
  = Some (map (peso_especificado c) (linhas d)).
Proof.
  destruct c; repeat split.
Qed.

Lemma w_outro (criterio : string) (rows : list Proc) :
  criterio <> "gravidade"%string -> criterio <> "incidencia"%string ->
  Pulp.w criterio rows
  = map (peso_especificado CostEfficiency) rows.
Proof.
  intros Hg Hi. unfold Pulp.w.
  apply String.eqb_neq in Hg, Hi. rewrite Hg, Hi. reflexivity.
Qed.

Lemma coluna_peso_outro (criterio : string) (rows : list Proc) :
  criterio <> "gravidade"%string -> criterio <> "incidencia"%string ->
  Simplex.coluna_peso criterio rows
  = map (peso_especificado CostEfficiency) rows.
Proof.
  intros Hg Hi. unfold Simplex.coluna_peso.
  apply String.eqb_neq in Hg, Hi. rewrite Hg, Hi. reflexivity.
Qed.



(** * Further properties of the heuristic *)

Lemma Ok_inj {A : Type} (a b : A) : Ok a = Ok b -> a = b.
Proof. intro H. congruence. Qed.

(** ** What [int] leaves over *)

Lemma int_resto (q : Q) : q < inject_Z (Z.max (int q) 0) + 1.
Proof.
  unfold int. destruct (Qle_bool 0 q) eqn:E.
  - apply Qle_bool_iff in E.
    assert (H0 : (0 <= Qfloor q)%Z).
    { change 0%Z with (Qfloor (inject_Z 0)). apply Qfloor_resp_le. exact E. }
    rewrite Z.max_l by lia.
    pose proof (Qlt_floor q) as Hlt. rewrite inject_Z_plus in Hlt.
    exact Hlt.
  - assert (Hq : q < 0).
    { destruct (Qlt_le_dec q 0) as [Hlt | Hge]; [exact Hlt |].
      apply Qle_bool_iff in Hge. congruence. }
    assert (H0 : 0 <= inject_Z (Z.max (Qceiling q) 0)).
    { apply inject_Z_nonneg. lia. }
    lra.
Qed.

Lemma floor_resto (a c : Q) (k : Q) :
  0 < c -> inject_Z (Qfloor (a / c)) < k + 1 ->
  (exists z : Z, k == inject_Z z) ->
  a - k * c < c.
Proof.
  intros Hc Hlt [z Hz].
  assert (Hfl : (Qfloor (a / c) <= z)%Z).
  { rewrite Hz in Hlt. change 1 with (inject_Z 1) in Hlt.
    rewrite <- inject_Z_plus in Hlt. rewrite <- Zlt_Qlt in Hlt. lia. }
  assert (Hq : a / c < k + 1).
  { pose proof (Qlt_floor (a / c)) as H1.
    rewrite inject_Z_plus in H1. change (inject_Z 1) with 1 in H1.
    rewrite Zle_Qle in Hfl. rewrite <- Hz in Hfl. lra. }
  assert (Ha : a / c * c == a) by (field; lra).
  assert (a / c * c < (k + 1) * c)
    by (apply Qmult_lt_compat_r; assumption).
  lra.
Qed.

Lemma quociente_resto (a c k : Q) :
  0 < c -> a / c < k + 1 -> a - k * c < c.
Proof.
  intros Hc Hq.
  assert (Ha : a / c * c == a) by (field; lra).
  assert (a / c * c < (k + 1) * c)
    by (apply Qmult_lt_compat_r; assumption).
  lra.
Qed.

Lemma min3_alcanca (a b : Q) (c : option Q) (k : Q) :
  min3 a b c < k ->
  a < k \/ b < k \/ (exists c', c = Some c' /\ c' < k).
Proof.
  unfold min3. destruct c as [c' |]; intro H.
  - destruct (Q.min_spec (Qmin a b) c') as [[_ E] | [_ E]];
      rewrite E in H.
    + destruct (Q.min_spec a b) as [[_ E'] | [_ E']]; rewrite E' in H;
        auto.
    + right. right. exists c'. auto.
  - destruct (Q.min_spec a b) as [[_ E'] | [_ E']]; rewrite E' in H; auto.
Qed.

(** ** Saturation *)

Section Saturacao.

Variables orcamento horas_sala leitos_uti : Q.

Local Abbreviation nao_cabe_em st p :=
  (nao_cabe orcamento horas_sala leitos_uti
     (Simplex.orcamento_usado st) (Simplex.tempo_usado st)
     (Simplex.uti_usada st) p).

(** The three ceilings the loop takes the minimum of, for a row that does
    not divide by zero. *)
Lemma qtd_max_forma (st : Simplex.Locais) (r : Proc * Q) :
  ~ custo_r (fst r) == 0 -> ~ tempo_h (fst r) == 0 ->
  Simplex.qtd_max orcamento horas_sala leitos_uti st r
  = Ok (int (min3
         (inject_Z (Qfloor ((orcamento - Simplex.orcamento_usado st)
                            / custo_r (fst r))))
         ((horas_sala - Simplex.tempo_usado st) / tempo_h (fst r))
         (if Qlt_le_dec 0 (uti (fst r))
          then Some (inject_Z (Qfloor ((leitos_uti - Simplex.uti_usada st)
                                       / uti (fst r))))
          else None))).
Proof.
  intros Hc Ht. unfold Simplex.qtd_max.
  rewrite (floordiv_total _ _ Hc). cbn [bind].
  rewrite (truediv_total _ _ Ht). cbn [bind].
  destruct (Qlt_le_dec 0 (uti (fst r))) as [Hu | Hu].
  - rewrite floordiv_total by lra. reflexivity.
  - reflexivity.
Qed.

(** Right after a row is visited, one more unit of it does not fit. *)
Lemma passo_satura (st st' : Simplex.Locais) (r : Proc * Q) :
  0 < custo_r (fst r) -> 0 < tempo_h (fst r) ->
  Simplex.passo orcamento horas_sala leitos_uti st r = Ok st' ->
  nao_cabe_em st' (fst r).
Proof.
  intros Hc Ht Hp.
  apply passo_casos in Hp. destruct Hp as [q [Hq Hcase]].
  rewrite qtd_max_forma in Hq by lra. apply Ok_inj in Hq.
  set (k := Z.max q 0).
  assert (Hk : exists z : Z, inject_Z k == inject_Z z)
    by (exists k; reflexivity).
  assert (Hst' :
    Simplex.orcamento_usado st'
      == Simplex.orcamento_usado st + inject_Z k * custo_r (fst r) /\
    Simplex.tempo_usado st'
      == Simplex.tempo_usado st + inject_Z k * tempo_h (fst r) /\
    Simplex.uti_usada st'
      == Simplex.uti_usada st + inject_Z k * uti (fst r)).
  { destruct Hcase as [[Hle ->] | [Hpos ->]].
    - unfold k. rewrite Z.max_r by lia. change (inject_Z 0) with 0.
      repeat split; ring.
    - unfold k. rewrite Z.max_l by lia. cbn. repeat split; reflexivity. }
  destruct Hst' as [E1 [E2 E3]].
  pose proof (int_resto (min3
         (inject_Z (Qfloor ((orcamento - Simplex.orcamento_usado st)
                            / custo_r (fst r))))
         ((horas_sala - Simplex.tempo_usado st) / tempo_h (fst r))
         (if Qlt_le_dec 0 (uti (fst r))
          then Some (inject_Z (Qfloor ((leitos_uti - Simplex.uti_usada st)
                                       / uti (fst r))))
          else None))) as Hres.
  rewrite Hq in Hres. fold k in Hres.
  apply min3_alcanca in Hres.
  unfold nao_cabe. rewrite E1, E2, E3.
  destruct Hres as [Ho | [Hh | [c' [Ec Hu]]]].
  - left. pose proof (floor_resto _ _ _ Hc Ho Hk). lra.
  - right. left. pose proof (quociente_resto _ _ _ Ht Hh). lra.
  - right. right.
    destruct (Qlt_le_dec 0 (uti (fst r))) as [Hup | Hun]; [| discriminate].
    apply (f_equal (fun o => match o with Some v => v | None => 0 end))
      in Ec.
    cbv beta iota in Ec. rewrite <- Ec in Hu. split; [exact Hup |].
    pose proof (floor_resto _ _ _ Hup Hu Hk). lra.
Qed.

(** Usage never decreases along a step on a valid row. *)
Lemma passo_cresce (st st' : Simplex.Locais) (r : Proc * Q) :
  linha_valida r ->
  Simplex.passo orcamento horas_sala leitos_uti st r = Ok st' ->
  Simplex.orcamento_usado st <= Simplex.orcamento_usado st' /\
  Simplex.tempo_usado st <= Simplex.tempo_usado st' /\
  Simplex.uti_usada st <= Simplex.uti_usada st'.
Proof.
  intros [Hc [Ht Hu]] Hp.
  apply passo_casos in Hp. destruct Hp as [q [_ [[_ ->] | [Hpos ->]]]].
  - repeat split; apply Qle_refl.
  - pose proof (inject_Z_pos q Hpos) as H1. cbn.
    assert (0 <= inject_Z q * custo_r (fst r))
      by (apply Qmult_le_0_compat; lra).
    assert (0 <= inject_Z q * tempo_h (fst r))
      by (apply Qmult_le_0_compat; lra).
    assert (0 <= inject_Z q * uti (fst r))
      by (apply Qmult_le_0_compat; lra).
    repeat split; lra.
Qed.

Lemma nao_cabe_cresce (ou tu uu ou' tu' uu' : Q) (p : Proc) :
  ou <= ou' -> tu <= tu' -> uu <= uu' ->
  nao_cabe orcamento horas_sala leitos_uti ou tu uu p ->
  nao_cabe orcamento horas_sala leitos_uti ou' tu' uu' p.
Proof.
  unfold nao_cabe. intros H1 H2 H3 [H | [H | [H0 H]]].
  - left. lra.
  - right. left. lra.
  - right. right. split; [exact H0 | lra].
Qed.

Lemma laco_satura (rows : list (Proc * Q)) :
  Forall linha_valida rows ->
  forall st st',
  Simplex.laco orcamento horas_sala leitos_uti rows st = Ok st' ->
  (Simplex.orcamento_usado st <= Simplex.orcamento_usado st' /\
   Simplex.tempo_usado st <= Simplex.tempo_usado st' /\
   Simplex.uti_usada st <= Simplex.uti_usada st') /\
  Forall (fun r => nao_cabe_em st' (fst r)) rows.
Proof.
  induction 1 as [| r rows Hr _ IH]; intros st st' Hl.
  - injection Hl as <-. split; [| constructor].
    repeat split; apply Qle_refl.
  - cbn [Simplex.laco] in Hl.
    destruct (Simplex.passo orcamento horas_sala leitos_uti st r)
      as [st1 | e] eqn:Ep; cbn [bind] in Hl; [| discriminate].
    destruct (passo_cresce _ _ _ Hr Ep) as [M1 [M2 M3]].
    destruct Hr as [Hc [Ht Hu]].
    pose proof (passo_satura _ _ _ Hc Ht Ep) as Hsat.
    destruct (IH _ _ Hl) as [[N1 [N2 N3]] Hall].
    split; [repeat split; lra |].
    constructor; [| exact Hall].
    eapply nao_cabe_cresce; [| | | exact Hsat]; assumption.
Qed.

(** A row of which not even one unit fits is skipped. *)
Lemma passo_nao_cabe (st : Simplex.Locais) (r : Proc * Q) :
  0 < custo_r (fst r) -> 0 < tempo_h (fst r) ->
  nao_cabe_em st (fst r) ->
  Simplex.passo orcamento horas_sala leitos_uti st r = Ok st.
Proof.
  intros Hc Ht Hn. unfold Simplex.passo.
  rewrite qtd_max_forma by lra. cbn [bind].
  match goal with |- context [int ?m] =>
    assert (Hq : (int m <= 0)%Z) end.
  { apply int_small.
    set (mo := inject_Z (Qfloor ((orcamento - Simplex.orcamento_usado st)
                                 / custo_r (fst r)))).
    set (mt := (horas_sala - Simplex.tempo_usado st) / tempo_h (fst r)).
    assert (Hmo : mo <= (orcamento - Simplex.orcamento_usado st)
                        / custo_r (fst r)) by apply Qfloor_le.
    destruct Hn as [Ho | [Hh | [Hu0 Hu]]].
    - assert ((orcamento - Simplex.orcamento_usado st) / custo_r (fst r) < 1)
        by (apply Qlt_shift_div_r; lra).
      pose proof (min3_le_1 mo mt
        (if Qlt_le_dec 0 (uti (fst r))
         then Some (inject_Z (Qfloor ((leitos_uti - Simplex.uti_usada st)
                                      / uti (fst r))))
         else None)).
      lra.
    - assert (mt < 1) by (apply Qlt_shift_div_r; lra).
      pose proof (min3_le_2 mo mt
        (if Qlt_le_dec 0 (uti (fst r))
         then Some (inject_Z (Qfloor ((leitos_uti - Simplex.uti_usada st)
                                      / uti (fst r))))
         else None)).
      lra.
    - destruct (Qlt_le_dec 0 (uti (fst r))) as [Hup | Hun]; [| lra].
      assert ((leitos_uti - Simplex.uti_usada st) / uti (fst r) < 1)
        by (apply Qlt_shift_div_r; lra).
      pose proof (min3_le_3 mo mt
        (inject_Z (Qfloor ((leitos_uti - Simplex.uti_usada st)
                           / uti (fst r))))).
      pose proof (Qfloor_le ((leitos_uti - Simplex.uti_usada st)
                             / uti (fst r))).
      lra. }
  apply Z.ltb_ge in Hq. rewrite Hq. reflexivity.
Qed.

Lemma laco_nao_cabe (rows : list (Proc * Q)) (st : Simplex.Locais) :
  Forall (fun r => 0 < custo_r (fst r) /\ 0 < tempo_h (fst r)
                   /\ nao_cabe_em st (fst r)) rows ->
  Simplex.laco orcamento horas_sala leitos_uti rows st = Ok st.
Proof.
  induction 1 as [| r rows [Hc [Ht Hn]] _ IH].
  - reflexivity.
  - cbn [Simplex.laco]. rewrite (passo_nao_cabe st r Hc Ht Hn).
    cbn [bind]. exact IH.
Qed.

End Saturacao.

(** ** The sorted rows against the table *)

Lemma ordenadas_linhas (d : DataFrame) (criterio : string)
    (P : Proc -> Prop) :
  Forall P (linhas d) <->
  Forall (fun r => P (fst r))
    (Simplex.ordenar
       (combine (linhas d) (Simplex.coluna_peso criterio (linhas d)))).
Proof.
  set (rows := combine (linhas d) (Simplex.coluna_peso criterio (linhas d))).
  destruct (combine_proj (linhas d) _ (length_pesos criterio (linhas d)))
    as [Ef _]. fold rows in Ef.
  rewrite <- Ef at 1. rewrite Forall_map.
  split; apply Permutation_Forall;
    [apply Permutation_sym |]; apply sort_values_perm.
Qed.

Lemma ordenadas_existe (d : DataFrame) (criterio : string)
    (P : Proc -> Prop) :
  Exists P (linhas d) <->
  Exists (fun r => P (fst r))
    (Simplex.ordenar
       (combine (linhas d) (Simplex.coluna_peso criterio (linhas d)))).
Proof.
  set (rows := combine (linhas d) (Simplex.coluna_peso criterio (linhas d))).
  destruct (combine_proj (linhas d) _ (length_pesos criterio (linhas d)))
    as [Ef _]. fold rows in Ef.
  rewrite <- Ef at 1. rewrite Exists_map.
  rewrite !Exists_exists.
  split; intros [r [Hin Hr]]; exists r; (split; [| exact Hr]).
  - eapply Permutation_in; [apply Permutation_sym, sort_values_perm | exact Hin].
  - eapply Permutation_in; [apply sort_values_perm | exact Hin].
Qed.

(** What the plan leaves over admits no further unit of any row. *)
Lemma saturacao_do_plano (d : DataFrame)
    (orcamento horas_sala leitos_uti : Q) (criterio : string)
    (s : list Simplex.Item) (m : Simplex.Metricas) :
  catalogo_valido (linhas d) ->
  Forall (fun p => 0 <= uti p) (linhas d) ->
  fst (Simplex.resolver_simplex_guloso d orcamento horas_sala leitos_uti
         criterio) = Ok (s, m) ->
  Forall (nao_cabe orcamento horas_sala leitos_uti
            (Simplex.m_orcamento_usado m) (Simplex.m_tempo_usado m)
            (Simplex.m_uti_usada m))
    (linhas d).
Proof.
  intros Hv Hu Hr. apply guloso_inv in Hr.
  destruct Hr as [st [Hst [_ [_ [-> [-> [-> _]]]]]]].
  apply (ordenadas_linhas d criterio).
  refine (proj2 (laco_satura _ _ _ _ _ _ _ Hst)).
  apply (ordenadas_linhas d criterio (fun p => linha_valida (p, 0))).
  unfold linha_valida. cbn [fst].
  unfold catalogo_valido in Hv. rewrite Forall_forall in Hv, Hu.
  apply Forall_forall. intros p Hin.
  destruct (Hv p Hin) as [H1 H2]. repeat split; auto.
Qed.





(** ** Exceptions of the heuristic *)

Lemma passo_zero (orcamento horas_sala leitos_uti : Q)
    (st : Simplex.Locais) (r : Proc * Q) :
  custo_r (fst r) == 0 \/ tempo_h (fst r) == 0 ->
  Simplex.passo orcamento horas_sala leitos_uti st r
  = Levanta ZeroDivisionError.
Proof.
  intro Hz. unfold Simplex.passo, Simplex.qtd_max, floordiv, truediv.
  destruct (Qeq_bool (custo_r (fst r)) 0) eqn:Ec; [reflexivity |].
  cbn [bind].
  destruct (Qeq_bool (tempo_h (fst r)) 0) eqn:Et; [reflexivity |].
  exfalso. destruct Hz as [Hz | Hz]; apply Qeq_bool_iff in Hz; congruence.
Qed.

Lemma passo_levanta (orcamento horas_sala leitos_uti : Q)
    (st : Simplex.Locais) (r : Proc * Q) (e : Excecao) :
  Simplex.passo orcamento horas_sala leitos_uti st r = Levanta e ->
  e = ZeroDivisionError /\
  (custo_r (fst r) == 0 \/ tempo_h (fst r) == 0).
Proof.
  intro Hp.
  destruct (Qeq_dec (custo_r (fst r)) 0) as [Hc | Hc].
  - rewrite passo_zero in Hp by (left; exact Hc).
    split; [congruence | left; exact Hc].
  - destruct (Qeq_dec (tempo_h (fst r)) 0) as [Ht | Ht].
    + rewrite passo_zero in Hp by (right; exact Ht).
      split; [congruence | right; exact Ht].
    + exfalso.
      destruct (qtd_max_total orcamento horas_sala leitos_uti st r Hc Ht)
        as [q Hq].
      unfold Simplex.passo in Hp. rewrite Hq in Hp. cbn [bind] in Hp.
      destruct (0 <? q)%Z; discriminate.
Qed.

Lemma laco_levanta (orcamento horas_sala leitos_uti : Q)
    (rows : list (Proc * Q)) :
  forall st e,
  Simplex.laco orcamento horas_sala leitos_uti rows st = Levanta e ->
  e = ZeroDivisionError /\
  Exists (fun r => custo_r (fst r) == 0 \/ tempo_h (fst r) == 0) rows.
Proof.
  induction rows as [| r rows IH]; intros st e Hl; [discriminate |].
  cbn [Simplex.laco] in Hl.
  destruct (Simplex.passo orcamento horas_sala leitos_uti st r)
    as [st1 | e1] eqn:Ep; cbn [bind] in Hl.
  - destruct (IH _ _ Hl) as [He Hex]. split; [exact He |].
    apply Exists_cons_tl. exact Hex.
  - injection Hl as <-. destruct (passo_levanta _ _ _ _ _ _ Ep) as [He Hz].
    split; [exact He |]. apply Exists_cons_hd. exact Hz.
Qed.

Lemma laco_zero (orcamento horas_sala leitos_uti : Q)
    (rows : list (Proc * Q)) :
  Exists (fun r => custo_r (fst r) == 0 \/ tempo_h (fst r) == 0) rows ->
  forall st,
  Simplex.laco orcamento horas_sala leitos_uti rows st
  = Levanta ZeroDivisionError.
Proof.
  induction 1 as [r rows Hz | r rows _ IH]; intro st; cbn [Simplex.laco].
  - rewrite passo_zero by exact Hz. reflexivity.
  - destruct (Simplex.passo orcamento horas_sala leitos_uti st r)
      as [st1 | e1] eqn:Ep; cbn [bind].
    + apply IH.
    + destruct (passo_levanta _ _ _ _ _ _ Ep) as [-> _]. reflexivity.
Qed.


(** ** Order and identity of the entries of a plan *)

Lemma inserir_ordenada (r : Proc * Q) (l : list (Proc * Q)) :
  StronglySorted peso_decrescente l ->
  StronglySorted peso_decrescente (Simplex.inserir r l).
Proof.
  induction 1 as [| h t Hs IH Hh]; cbn [Simplex.inserir].
  - constructor; constructor.
  - destruct (Qle_bool (snd h) (snd r)) eqn:E.
    + apply Qle_bool_iff in E. constructor.
      * constructor; assumption.
      * constructor; [exact E |].
        eapply Forall_impl; [| exact Hh].
        unfold peso_decrescente. intros a Ha. lra.
    + assert (Hlt : snd r < snd h).
      { destruct (Qlt_le_dec (snd r) (snd h)) as [L | G]; [exact L |].
        apply Qle_bool_iff in G. congruence. }
      constructor; [exact IH |].
      eapply Permutation_Forall;
        [apply Permutation_sym, inserir_perm |].
      constructor; [| exact Hh].
      unfold peso_decrescente. lra.
Qed.

Lemma ordenar_ordenada (l : list (Proc * Q)) :
  StronglySorted peso_decrescente (Simplex.ordenar l).
Proof.
  induction l as [| r l IH]; cbn [Simplex.ordenar fold_right].
  - constructor.
  - apply inserir_ordenada. exact IH.
Qed.

(** The entries the loop appends follow the rows it visits: in the same
    order, at most one per row, each worth its quantity times the weight
    of its row. *)
Lemma laco_ordem (orcamento horas_sala leitos_uti : Q)
    (rows : list (Proc * Q)) :
  forall st st',
  Simplex.laco orcamento horas_sala leitos_uti rows st = Ok st' ->
  exists novos : list Simplex.Item,
    Simplex.solucao st' = Simplex.solucao st ++ novos /\
    Forall (fun i => exists r, In r rows /\
                       Simplex.ID i = id (fst r) /\
                       Simplex.Peso i = snd r /\
                       Simplex.Gravidade i = gravidade (fst r) /\
                       Simplex.Procedimento i = procedimento (fst r))
      novos /\
    (StronglySorted peso_decrescente rows ->
     StronglySorted (fun i j => Simplex.Peso j <= Simplex.Peso i) novos) /\
    (NoDup (map (fun r => id (fst r)) rows) ->
     NoDup (map Simplex.ID novos)) /\
    Simplex.valor_objetivo st'
      == Simplex.valor_objetivo st + total valor_item novos.
Proof.
  induction rows as [| r rows IH]; intros st st' Hl.
  - injection Hl as <-. exists []. rewrite app_nil_r.
    cbn [total fold_right map].
    split; [reflexivity |]. split; [constructor |].
    split; [intros _; constructor |]. split; [intros _; constructor |].
    ring.
  - cbn [Simplex.laco] in Hl.
    destruct (Simplex.passo orcamento horas_sala leitos_uti st r)
      as [st1 | e] eqn:Ep; cbn [bind] in Hl; [| discriminate].
    apply passo_casos in Ep. destruct Ep as [q [_ [[_ ->] | [Hpos ->]]]];
      destruct (IH _ _ Hl) as [novos [Es [Hf [Hs [Hn Ev]]]]].
    + exists novos. split; [exact Es |]. split.
      { eapply Forall_impl; [| exact Hf].
        intros i [r' [Hin Hi]]. exists r'. split; [right; exact Hin | exact Hi]. }
      split.
      { intro Hsort. apply Hs. inversion Hsort; assumption. }
      split; [| exact Ev].
      intro Hnd. apply Hn. cbn [map] in Hnd. inversion Hnd; assumption.
    + cbn [Simplex.registra Simplex.solucao Simplex.valor_objetivo]
        in Es, Ev.
      rewrite <- app_assoc in Es. cbn [app] in Es.
      eexists. split; [exact Es |].
      assert (Hf' : Forall (fun i => exists r', In r' (r :: rows) /\
                       Simplex.ID i = id (fst r') /\
                       Simplex.Peso i = snd r' /\
                       Simplex.Gravidade i = gravidade (fst r') /\
                       Simplex.Procedimento i = procedimento (fst r'))
                      novos).
      { eapply Forall_impl; [| exact Hf].
        intros i [r' [Hin Hi]]. exists r'.
        split; [right; exact Hin | exact Hi]. }
      split.
      { constructor; [| exact Hf'].
        exists r. split; [left; reflexivity |]. repeat split. }
      split.
      { intro Hsort. inversion Hsort as [| ? ? Hst Hall]; subst.
        constructor; [apply Hs; exact Hst |].
        cbn [Simplex.Peso].
        rewrite Forall_forall in Hf, Hall. apply Forall_forall.
        intros i Hi. destruct (Hf i Hi) as [r' [Hin [_ [Hp _]]]].
        rewrite Hp. exact (Hall r' Hin). }
      split.
      { intro Hnd. cbn [map] in Hnd. inversion Hnd as [| ? ? Hni Hnd']; subst.
        cbn [map Simplex.ID]. constructor; [| apply Hn; exact Hnd'].
        intro Hin. apply Hni. apply in_map_iff in Hin.
        destruct Hin as [i [Ei Hi]].
        rewrite Forall_forall in Hf.
        destruct (Hf i Hi) as [r' [Hin' [Hid _]]].
        apply in_map_iff. exists r'. split; [congruence | exact Hin']. }
      rewrite Ev.
      assert (Hc : forall i l, total valor_item (i :: l)
                               = valor_item i + total valor_item l)
        by reflexivity.
      rewrite Hc. set (T := total valor_item novos).
      unfold valor_item. cbn [Simplex.Quantidade Simplex.Peso]. ring.
Qed.

Lemma guloso_laco_ordem (d : DataFrame)
    (orcamento horas_sala leitos_uti : Q) (criterio : string)
    (s : list Simplex.Item) (m : Simplex.Metricas) :
  fst (Simplex.resolver_simplex_guloso d orcamento horas_sala leitos_uti
         criterio) = Ok (s, m) ->
  let ord := Simplex.ordenar
               (combine (linhas d)
                  (Simplex.coluna_peso criterio (linhas d))) in
  Forall (fun i => exists r, In r ord /\
                     Simplex.ID i = id (fst r) /\
                     Simplex.Peso i = snd r /\
                     Simplex.Gravidade i = gravidade (fst r) /\
                     Simplex.Procedimento i = procedimento (fst r)) s /\
  (StronglySorted peso_decrescente ord ->
   StronglySorted (fun i j => Simplex.Peso j <= Simplex.Peso i) s) /\
  (NoDup (map (fun r => id (fst r)) ord) -> NoDup (map Simplex.ID s)) /\
  Simplex.m_valor_objetivo m == total valor_item s.
Proof.
  intros Hr ord. apply guloso_inv in Hr.
  destruct Hr as [st [Hst [-> [-> _]]]].
  destruct (laco_ordem _ _ _ _ _ _ Hst) as [novos [Es [Hf [Hs [Hn Ev]]]]].
  cbn [Simplex.inicio Simplex.solucao Simplex.valor_objetivo app] in Es, Ev.
  rewrite Es. repeat split; try assumption. rewrite Ev. ring.
Qed.

(** X4: the entries of the plan the heuristic returns come in order of
    non-increasing weight, and each entry carries the identifier, name,
    severity and weight of one row of the table, the weight being the one
    the criterion assigns to that row. *)
Theorem guloso_ordenado (d : DataFrame)
    (orcamento horas_sala leitos_uti : Q) (criterio : string)
    (s : list Simplex.Item) (m : Simplex.Metricas) :
  fst (Simplex.resolver_simplex_guloso d orcamento horas_sala leitos_uti
         criterio) = Ok (s, m) ->
  StronglySorted (fun i j => Simplex.Peso j <= Simplex.Peso i) s /\
  Forall (fun i =>
            exists p,
              In (p, Simplex.Peso i)
                (combine (linhas d)
                   (Simplex.coluna_peso criterio (linhas d))) /\
              Simplex.ID i = id p /\
              Simplex.Procedimento i = procedimento p /\
              Simplex.Gravidade i = gravidade p) s.
Proof.
  intro Hr.
  destruct (guloso_laco_ordem _ _ _ _ _ _ _ Hr) as [Hf [Hs _]].
  split; [apply Hs, ordenar_ordenada |].
  eapply Forall_impl; [| exact Hf].
  intros i [[p q] [Hin [Hid [Hp [Hg Hn]]]]]. cbn [fst snd] in *.
  exists p. rewrite Hp. repeat split; try assumption.
  eapply Permutation_in; [apply sort_values_perm | exact Hin].
Qed.

Lemma guloso_ordenado_witness :
  exists s m,
    fst (Simplex.resolver_simplex_guloso df 500000 480 15 "incidencia")
      = Ok (s, m) /\
    StronglySorted (fun i j => Simplex.Peso j <= Simplex.Peso i) s.
Proof.
  eexists. eexists. split; [vm_compute; reflexivity |].
  eapply (guloso_ordenado df 500000 480 15 "incidencia").
  vm_compute. reflexivity.
Defined.

(** X5: when the identifiers of the table are pairwise distinct, so are
    those of the plan: a procedure appears in at most one entry. *)
Theorem guloso_ids_distintos (d : DataFrame)
    (orcamento horas_sala leitos_uti : Q) (criterio : string)
    (s : list Simplex.Item) (m : Simplex.Metricas) :
  NoDup (map id (linhas d)) ->
  fst (Simplex.resolver_simplex_guloso d orcamento horas_sala leitos_uti
         criterio) = Ok (s, m) ->
  NoDup (map Simplex.ID s).
Proof.
  intros Hnd Hr.
  destruct (guloso_laco_ordem _ _ _ _ _ _ _ Hr) as [_ [_ [Hn _]]].
  apply Hn.
  rewrite <- (map_map fst id).
  eapply Permutation_NoDup.
  - apply Permutation_map. apply Permutation_map.
    apply Permutation_sym, sort_values_perm.
  - destruct (combine_proj (linhas d) _
                (length_pesos criterio (linhas d))) as [-> _].
    exact Hnd.
Qed.

Lemma guloso_ids_distintos_witness :
  exists s m,
    fst (Simplex.resolver_simplex_guloso df 500000 480 15 "incidencia")
      = Ok (s, m) /\
    NoDup (map Simplex.ID s).
Proof.
  eexists. eexists. split; [vm_compute; reflexivity |].
  eapply (guloso_ids_distintos df 500000 480 15 "incidencia").
  - repeat constructor; cbn; intuition discriminate.
  - vm_compute. reflexivity.
Defined.

Lemma soma_quantidade_positiva (s : list Simplex.Item) :
  Forall (fun i => (0 < Simplex.Quantidade i)%Z) s ->
  (Z.of_nat (List.length s) <= Simplex.soma_quantidade s)%Z.
Proof.
  induction 1 as [| i s Hi _ IH];
    cbn [Simplex.soma_quantidade fold_right List.length].
  - lia.
  - fold (Simplex.soma_quantidade s). lia.
Qed.

(** X6: the totals returned with a plan agree with its entries: the
    objective value is the sum of quantity times weight over the entries,
    the number of surgeries is the sum of the quantities, it is at least
    the number of entries, and it is zero exactly when the plan is
    empty. *)
Theorem guloso_totais (d : DataFrame)
    (orcamento horas_sala leitos_uti : Q) (criterio : string)
    (s : list Simplex.Item) (m : Simplex.Metricas) :
  fst (Simplex.resolver_simplex_guloso d orcamento horas_sala leitos_uti
         criterio) = Ok (s, m) ->
  Simplex.m_valor_objetivo m == total valor_item s /\
  Simplex.m_total_cirurgias m = Simplex.soma_quantidade s /\
  (Z.of_nat (List.length s) <= Simplex.m_total_cirurgias m)%Z /\
  (Simplex.m_total_cirurgias m = 0%Z <-> s = []).
Proof.
  intro Hr.
  destruct (guloso_laco_ordem _ _ _ _ _ _ _ Hr) as [_ [_ [_ Hv]]].
  destruct (guloso_plano _ _ _ _ _ _ _ Hr) as [Hf _].
  pose proof Hr as Hi. apply guloso_inv in Hi.
  destruct Hi as [st [_ [_ [_ [_ [_ [_ Ht]]]]]]].
  assert (Hpos : Forall (fun i => (0 < Simplex.Quantidade i)%Z) s).
  { eapply Forall_impl; [| exact Hf]. intros i [Hi _]. exact Hi. }
  pose proof (soma_quantidade_positiva s Hpos) as Hge.
  rewrite Ht. repeat split; try assumption.
  - intro H0. destruct s; [reflexivity |].
    cbn [List.length] in Hge. lia.
  - intros ->. reflexivity.
Qed.

Lemma guloso_totais_witness :
  exists s m,
    fst (Simplex.resolver_simplex_guloso df 500000 480 15 "incidencia")
      = Ok (s, m) /\
    Simplex.m_valor_objetivo m == total valor_item s /\
    Simplex.m_total_cirurgias m = 25%Z.
Proof.
  eexists. eexists. split; [vm_compute; reflexivity |].
  split.
  - eapply (guloso_totais df 500000 480 15 "incidencia").
    vm_compute. reflexivity.
  - reflexivity.
Defined.

(** ** The scenario loop *)

Lemma nada_cabe_vazio (d : DataFrame)
    (orcamento horas_sala leitos_uti : Q) (criterio : string)
    (s : list Simplex.Item) (m : Simplex.Metricas) :
  catalogo_valido (linhas d) ->
  Forall (fun p => orcamento < custo_r p \/ horas_sala < tempo_h p \/
                   (0 < uti p /\ leitos_uti < uti p))
    (linhas d) ->
  fst (Simplex.resolver_simplex_guloso d orcamento horas_sala leitos_uti
         criterio) = Ok (s, m) ->
  s = [].
Proof.
  intros Hv Hall Hr. apply guloso_inv in Hr.
  destruct Hr as [st [Hst [-> _]]].
  rewrite laco_nao_cabe in Hst.
  - apply Ok_inj in Hst. subst st. reflexivity.
  - apply (ordenadas_linhas d criterio
             (fun p => 0 < custo_r p /\ 0 < tempo_h p /\
                       nao_cabe orcamento horas_sala leitos_uti 0 0 0 p)).
    unfold catalogo_valido in Hv. rewrite Forall_forall in Hv, Hall.
    apply Forall_forall. intros p Hin.
    destruct (Hv p Hin) as [H1 H2]. repeat split; auto.
    unfold nao_cabe.
    destruct (Hall p Hin) as [H | [H | [H0 H]]];
      [left | right; left | right; right; split]; lra.
Qed.

(** A non-empty plan on a valid catalog needs a positive budget and
    positive room hours. *)
Lemma plano_precisa_recursos (d : DataFrame)
    (orcamento horas_sala leitos_uti : Q) (criterio : string)
    (i : Simplex.Item) (s : list Simplex.Item) (m : Simplex.Metricas) :
  catalogo_valido (linhas d) ->
  fst (Simplex.resolver_simplex_guloso d orcamento horas_sala leitos_uti
         criterio) = Ok (i :: s, m) ->
  0 < orcamento /\ 0 < horas_sala.
Proof.
  intros Hv Hr.
  split.
  - destruct (Qlt_le_dec 0 orcamento) as [H | H]; [exact H | exfalso].
    assert (E : i :: s = []); [| discriminate].
    eapply nada_cabe_vazio; [exact Hv | | exact Hr].
    eapply Forall_impl; [| exact Hv]. intros p [Hc _]. left. lra.
  - destruct (Qlt_le_dec 0 horas_sala) as [H | H]; [exact H | exfalso].
    assert (E : i :: s = []); [| discriminate].
    eapply nada_cabe_vazio; [exact Hv | | exact Hr].
    eapply Forall_impl; [| exact Hv]. intros p [_ Ht]. right. left. lra.
Qed.



(** X8: the objective value of the heuristic is not monotone in the
    budget: on a table with strictly positive costs and durations, 10
    room hours and a budget of 9 it reaches 81, and with the budget
    raised to 10 only 10. *)
Theorem guloso_nao_monotono :
  catalogo_valido (linhas orcamento_adverso) /\
  exists s m s' m',
    fst (Simplex.resolver_simplex_guloso orcamento_adverso 9 10 0
           "gravidade") = Ok (s, m) /\
    fst (Simplex.resolver_simplex_guloso orcamento_adverso 10 10 0
           "gravidade") = Ok (s', m') /\
    Simplex.m_valor_objetivo m == 81 /\
    Simplex.m_valor_objetivo m' == 10 /\
    Simplex.m_valor_objetivo m' < Simplex.m_valor_objetivo m.
Proof.
  split; [repeat constructor |].
  eexists. eexists. eexists. eexists.
  split; [vm_compute; reflexivity |].
  split; [vm_compute; reflexivity |].
  repeat split; vm_compute; reflexivity.
Qed.

(** * Further properties of the integer program *)

(** ** Ceilings on the quantities *)

Lemma lpSum_teto (c : list Q) :
  forall (y : list Z) (orcamento : Q),
  Forall (fun ci => 0 < ci) c ->
  Forall (fun q => (0 <= q)%Z) y ->
  List.length y = List.length c ->
  Pulp.lpSum c y <= orcamento ->
  Forall2 (fun ci q => (q <= Qfloor (orcamento / ci))%Z) c y.
Proof.
  induction c as [| ci c IH]; intros [| q y] B Hc Hy Hlen Hle;
    try discriminate; [constructor |].
  cbn [Pulp.lpSum] in Hle.
  inversion Hc; subst. inversion Hy; subst. injection Hlen as Hlen.
  assert (Hq : 0 <= inject_Z q) by now apply inject_Z_nonneg.
  assert (Hcq : 0 <= ci * inject_Z q) by (apply Qmult_le_0_compat; lra).
  assert (Hrest : 0 <= Pulp.lpSum c y).
  { apply lpSum_nonneg; [| assumption].
    eapply Forall_impl; [| eassumption]. intros; cbn in *; lra. }
  constructor.
  - assert (Hdiv : inject_Z q <= B / ci)
      by (apply Qle_shift_div_l; [assumption | lra]).
    apply Qfloor_resp_le in Hdiv. rewrite Qfloor_Z in Hdiv. exact Hdiv.
  - apply IH; try assumption. lra.
Qed.

(** The budget and the room hours bound every quantity. *)
Lemma tetos_das_quantidades (d : DataFrame)
    (orcamento horas_sala leitos_uti : Q) (criterio : string)
    (y : list Z) :
  catalogo_valido (linhas d) ->
  Pulp.viavel (Pulp.prob d orcamento horas_sala leitos_uti criterio) y
    = true ->
  Forall2 (fun p q => (0 <= q)%Z /\
                      (q <= Qfloor (orcamento / custo_r p))%Z /\
                      (q <= Qfloor (horas_sala / tempo_h p))%Z)
    (linhas d) y.
Proof.
  intros Hv Hy. apply viavel_prob in Hy.
  destruct Hy as [Hlen [Hnn [C1 [C2 _]]]].
  assert (T1 : Forall2 (fun ci q => (q <= Qfloor (orcamento / ci))%Z)
                 (map custo_r (linhas d)) y).
  { apply lpSum_teto; try assumption.
    - apply Forall_map. eapply Forall_impl; [| exact Hv].
      intros p [H _]. exact H.
    - now rewrite length_map. }
  assert (T2 : Forall2 (fun ci q => (q <= Qfloor (horas_sala / ci))%Z)
                 (map tempo_h (linhas d)) y).
  { apply lpSum_teto; try assumption.
    - apply Forall_map. eapply Forall_impl; [| exact Hv].
      intros p [_ H]. exact H.
    - now rewrite length_map. }
  clear C1 C2 Hv. revert y Hlen Hnn T1 T2.
  induction (linhas d) as [| p rows IH]; intros [| q y] Hlen Hnn T1 T2;
    try discriminate; [constructor |].
  cbn [map] in T1, T2.
  inversion T1; subst. inversion T2; subst. inversion Hnn; subst.
  constructor; [repeat split; assumption |].
  apply IH; try assumption. now injection Hlen.
Qed.

(** X9: when every unit cost and duration is strictly positive, each
    quantity of a feasible point of the program is an integer between 0
    and both the budget divided by the unit cost and the room hours
    divided by the duration, rounded down. *)
Theorem viavel_tetos (d : DataFrame)
    (orcamento horas_sala leitos_uti : Q) (criterio : string)
    (y : list Z) :
  catalogo_valido (linhas d) ->
  Pulp.viavel (Pulp.prob d orcamento horas_sala leitos_uti criterio) y
    = true ->
  Forall2 (fun p q => (0 <= q)%Z /\
                      (q <= Qfloor (orcamento / custo_r p))%Z /\
                      (q <= Qfloor (horas_sala / tempo_h p))%Z)
    (linhas d) y.
Proof. apply tetos_das_quantidades. Qed.

Lemma viavel_tetos_witness :
  Forall2 (fun p q => (0 <= q)%Z /\
                      (q <= Qfloor (500000 / custo_r p))%Z /\
                      (q <= Qfloor (6 / tempo_h p))%Z)
    (linhas didatico) [0; 1; 1]%Z.
Proof.
  refine (viavel_tetos didatico 500000 6 1 "gravidade" _ _ _).
  - repeat constructor.
  - vm_compute. reflexivity.
Defined.

(** ** Existence of an optimum *)

Lemma caixa_contem (tetos : list Z) :
  forall y,
  Forall2 (fun u q => (0 <= q <= u)%Z) tetos y ->
  In y (caixa tetos).
Proof.
  induction tetos as [| u us IH]; intros y Hy; inversion Hy; subst.
  - left. reflexivity.
  - cbn [caixa]. apply in_flat_map.
    match goal with H : (0 <= ?q <= u)%Z |- _ => rename q into v end.
    exists v. split.
    + apply in_map_iff. exists (Z.to_nat v). split; [lia |].
      apply in_seq. lia.
    + apply in_map. apply IH. assumption.
Qed.

Lemma melhor_da_lista {A : Type} (f : A -> Q) (P : A -> bool)
    (l : list A) :
  (exists a, In a l /\ P a = true) ->
  exists b, In b l /\ P b = true /\
            forall a, In a l -> P a = true -> f a <= f b.
Proof.
  induction l as [| h t IH]; intros [a [Hin Ha]]; [contradiction |].
  destruct (P h) eqn:Eh.
  - assert (Hopt : (exists a', In a' t /\ P a' = true) \/
                   (forall a', In a' t -> P a' = false)).
    { clear. induction t as [| x t IHt].
      - right. intros a' [].
      - destruct (P x) eqn:Ex.
        + left. exists x. split; [left; reflexivity | exact Ex].
        + destruct IHt as [[a' [Hi Hp]] | Hno].
          * left. exists a'. split; [right; exact Hi | exact Hp].
          * right. intros a' [<- | Hi]; [exact Ex | apply Hno, Hi]. }
    destruct Hopt as [Hex | Hno].
    + destruct (IH Hex) as [b [Hb [Pb Hmax]]].
      destruct (Qlt_le_dec (f b) (f h)) as [Hlt | Hge].
      * exists h. split; [left; reflexivity |]. split; [exact Eh |].
        intros a' [<- | Hi] Pa; [apply Qle_refl |].
        specialize (Hmax a' Hi Pa). lra.
      * exists b. split; [right; exact Hb |]. split; [exact Pb |].
        intros a' [<- | Hi] Pa; [exact Hge | exact (Hmax a' Hi Pa)].
    + exists h. split; [left; reflexivity |]. split; [exact Eh |].
      intros a' [<- | Hi] Pa; [apply Qle_refl |].
      rewrite (Hno a' Hi) in Pa. discriminate.
  - destruct Hin as [<- | Hin]; [congruence |].
    destruct (IH (ex_intro _ a (conj Hin Ha))) as [b [Hb [Pb Hmax]]].
    exists b. split; [right; exact Hb |]. split; [exact Pb |].
    intros a' [<- | Hi] Pa; [congruence | exact (Hmax a' Hi Pa)].
Qed.

(** X10: for every table with strictly positive costs and durations and
    every envelope without a negative capacity, the program built by the
    exact path has an optimal point: among its finitely many feasible
    points one has the largest objective value, so a solver that answers
    Optimal can honour its contract. *)
Theorem existe_otimo (d : DataFrame)
    (orcamento horas_sala leitos_uti : Q) (criterio : string) :
  catalogo_valido (linhas d) ->
  0 <= orcamento -> 0 <= horas_sala -> 0 <= leitos_uti ->
  exists y,
    Pulp.otimo (Pulp.prob d orcamento horas_sala leitos_uti criterio) y /\
    Pulp.contrato_cbc
      (Pulp.prob d orcamento horas_sala leitos_uti criterio)
      (Pulp.Optimal, y).
Proof.
  intros Hv HB HH HL.
  set (p := Pulp.prob d orcamento horas_sala leitos_uti criterio).
  set (tetos := map (fun r => Qfloor (orcamento / custo_r r)) (linhas d)).
  assert (Hbox : forall y, Pulp.viavel p y = true -> In y (caixa tetos)).
  { intros y Hy. apply caixa_contem.
    pose proof (tetos_das_quantidades _ _ _ _ _ _ Hv Hy) as Ht.
    unfold tetos. clear -Ht.
    induction Ht as [| r q rows y [H0 [H1 _]] _ IH]; cbn [map];
      constructor; [lia | exact IH]. }
  destruct (melhor_da_lista (Pulp.valor p) (Pulp.viavel p) (caixa tetos))
    as [b [Hb [Pb Hmax]]].
  { exists (repeat 0%Z (List.length (linhas d))).
    assert (Hz : Pulp.viavel p (repeat 0%Z (List.length (linhas d))) = true)
      by (apply zero_viavel; assumption).
    split; [apply Hbox, Hz | exact Hz]. }
  assert (Ho : Pulp.otimo p b).
  { split; [exact Pb |]. intros z Hz. apply Hmax; [apply Hbox, Hz | exact Hz]. }
  exists b. split; [exact Ho | exact Ho].
Qed.

Lemma existe_otimo_witness :
  exists y, Pulp.otimo (Pulp.prob df 500000 480 15 "incidencia") y.
Proof.
  destruct (existe_otimo df 500000 480 15 "incidencia") as [y [Hy _]].
  - repeat constructor.
  - unfold Qle; simpl; lia.
  - unfold Qle; simpl; lia.
  - unfold Qle; simpl; lia.
  - exists y. exact Hy.
Defined.

(** ** No ICU bed for any procedure *)

Lemma lpSum_abaixo (c : list Q) (teto : Q) :
  forall y : list Z,
  0 <= teto ->
  Forall (fun ci => teto < ci) c ->
  Forall (fun q => (0 <= q)%Z) y ->
  List.length y = List.length c ->
  Pulp.lpSum c y <= teto ->
  y = repeat 0%Z (List.length c).
Proof.
  intros y H0. revert y.
  induction c as [| ci c IH]; intros [| q y] Hc Hy Hlen Hle;
    try discriminate; [reflexivity |].
  cbn [Pulp.lpSum] in Hle. cbn [List.length repeat].
  inversion Hc; subst. inversion Hy; subst. injection Hlen as Hlen.
  assert (Hrest : 0 <= Pulp.lpSum c y).
  { apply lpSum_nonneg; [| assumption].
    eapply Forall_impl; [| eassumption]. intros; cbn in *; lra. }
  assert (Hq : q = 0%Z).
  { destruct (Z.eq_dec q 0) as [E | E]; [exact E | exfalso].
    assert (Hq1 : 1 <= inject_Z q) by (apply inject_Z_pos; lia).
    assert (ci * 1 <= ci * inject_Z q).
    { rewrite (Qmult_comm ci 1), (Qmult_comm ci (inject_Z q)).
      apply Qmult_le_compat_r; lra. }
    lra. }
  subst q. f_equal. apply IH; try assumption.
  change (inject_Z 0) with 0 in Hle. lra.
Qed.



(** ** What the exact path returns *)

(** X12: on a table with strictly positive costs and durations and an
    envelope without a negative capacity, with a solver that honours its
    contract, the exact path never returns an allocation: a status
    Optimal ends in the exception of the extraction, Infeasible and
    Unbounded are excluded, and any normal return carries status Not
    Solved or Undefined with neither solution nor metrics. *)
Theorem exato_sem_relatorio (cbc : Pulp.LpProblem -> Pulp.LpStatus * list Z)
    (d : DataFrame) (orcamento horas_sala leitos_uti : Q)
    (criterio : string) (ret : Pulp.Retorno) :
  catalogo_valido (linhas d) ->
  0 <= orcamento -> 0 <= horas_sala -> 0 <= leitos_uti ->
  Pulp.contrato_cbc
    (Pulp.prob d orcamento horas_sala leitos_uti criterio)
    (cbc (Pulp.prob d orcamento horas_sala leitos_uti criterio)) ->
  fst (Pulp.otimizar_cirurgias_pulp cbc d orcamento horas_sala leitos_uti
         criterio) = Ok ret ->
  (Pulp.status ret = Pulp.NotSolved \/ Pulp.status ret = Pulp.Undefined) /\
  Pulp.solucao ret = None /\ Pulp.metricas ret = None.
Proof.
  intros Hv HB HH HL Hc Hret.
  unfold Pulp.otimizar_cirurgias_pulp in Hret. cbn [fst] in Hret.
  set (p := Pulp.prob d orcamento horas_sala leitos_uti criterio) in *.
  unfold Pulp.contrato_cbc in Hc.
  destruct (fst (cbc p)) eqn:Est.
  - injection Hret as <-. cbn. auto.
  - destruct (linhas d); discriminate.
  - exfalso.
    pose proof (zero_viavel d orcamento horas_sala leitos_uti criterio
                  HB HH HL) as Hz.
    fold p in Hz. rewrite Hc in Hz. discriminate.
  - exfalso.
    destruct (Hc (cota (Pulp.w criterio (linhas d))
                    (map custo_r (linhas d)) orcamento))
      as [z [Hz Hlt]].
    apply viavel_prob in Hz. destruct Hz as [_ [Hnn [C1 _]]].
    assert (Hb : Pulp.valor p z
                 <= cota (Pulp.w criterio (linhas d))
                      (map custo_r (linhas d)) orcamento).
    { unfold Pulp.valor, p, Pulp.prob. cbn [Pulp.objetivo].
      apply lpSum_cota; try assumption.
      - apply Forall_map. eapply Forall_impl; [| exact Hv].
        intros q [H1 _]. exact H1.
      - rewrite w_coluna_peso, length_pesos, length_map. reflexivity. }
    lra.
  - injection Hret as <-. cbn. auto.
Qed.

Lemma exato_sem_relatorio_witness :
  Pulp.status
    {| Pulp.status := Pulp.Undefined;
       Pulp.solucao := None;
       Pulp.metricas := None |} = Pulp.NotSolved \/
  Pulp.status
    {| Pulp.status := Pulp.Undefined;
       Pulp.solucao := None;
       Pulp.metricas := None |} = Pulp.Undefined.
Proof.
  refine (proj1 (exato_sem_relatorio (fun _ => (Pulp.Undefined, []))
            df 500000 480 15 "incidencia" _ _ _ _ _ _ eq_refl)).
  - repeat constructor.
  - unfold Qle; simpl; lia.
  - unfold Qle; simpl; lia.
  - unfold Qle; simpl; lia.
  - exact I.
Defined.

(** * The order of the rows *)

Lemma w_map (criterio : string) (rows : list Proc) :
  Pulp.w criterio rows = map (peso_linha criterio) rows.
Proof.
  unfold Pulp.w, peso_linha.
  destruct (String.eqb criterio "gravidade"); [reflexivity |].
  destruct (String.eqb criterio "incidencia"); reflexivity.
Qed.

Lemma coluna_peso_map (criterio : string) (rows : list Proc) :
  Simplex.coluna_peso criterio rows = map (peso_linha criterio) rows.
Proof. rewrite <- w_coluna_peso. apply w_map. Qed.

Lemma viavel_permutada (d d' : DataFrame)
    (orcamento horas_sala leitos_uti : Q) (criterio : string) (y : list Z) :
  Permutation (linhas d) (linhas d') ->
  Pulp.viavel (Pulp.prob d orcamento horas_sala leitos_uti criterio) y
    = true ->
  exists y',
    Pulp.viavel (Pulp.prob d' orcamento horas_sala leitos_uti criterio) y'
      = true /\
    Pulp.valor (Pulp.prob d' orcamento horas_sala leitos_uti criterio) y'
    == Pulp.valor (Pulp.prob d orcamento horas_sala leitos_uti criterio) y.
Proof.
  intros Hp Hy. apply viavel_prob in Hy.
  destruct Hy as [Hlen [Hnn [C1 [C2 C3]]]].
  destruct (realinha (linhas d') (linhas d) y Hp Hlen Hnn)
    as [y' [Hlen' [Hnn' Hsum]]].
  exists y'. split.
  - apply viavel_prob. repeat split; try assumption.
    + rewrite (Hsum custo_r). exact C1.
    + rewrite (Hsum tempo_h). exact C2.
    + rewrite (Hsum uti). exact C3.
  - unfold Pulp.valor, Pulp.prob. cbn [Pulp.objetivo].
    rewrite !w_map. apply Hsum.
Qed.

(** X13: the optimal objective value of the program does not depend on
    the order of the rows of the table: two tables with the same rows in
    different orders have optima of equal value, whatever the envelope
    and the criterion. *)
Theorem ordem_irrelevante_exato (d d' : DataFrame)
    (orcamento horas_sala leitos_uti : Q) (criterio : string)
    (y y' : list Z) :
  Permutation (linhas d) (linhas d') ->
  Pulp.otimo (Pulp.prob d orcamento horas_sala leitos_uti criterio) y ->
  Pulp.otimo (Pulp.prob d' orcamento horas_sala leitos_uti criterio) y' ->
  Pulp.valor (Pulp.prob d orcamento horas_sala leitos_uti criterio) y
  == Pulp.valor (Pulp.prob d' orcamento horas_sala leitos_uti criterio) y'.
Proof.
  intros Hp [Hy Hmax] [Hy' Hmax'].
  destruct (viavel_permutada _ _ _ _ _ criterio _ Hp Hy) as [z' [Hz' Ez']].
  destruct (viavel_permutada _ _ _ _ _ criterio _ (Permutation_sym Hp) Hy')
    as [z [Hz Ez]].
  specialize (Hmax z Hz). specialize (Hmax' z' Hz').
  apply Qle_antisym; lra.
Qed.

Lemma ordenada_unica (l1 : list (Proc * Q)) :
  forall l2,
  StronglySorted peso_decrescente l1 ->
  StronglySorted peso_decrescente l2 ->
  Permutation l1 l2 ->
  (forall a b, In a l1 -> In b l1 -> snd a == snd b -> a = b) ->
  l1 = l2.
Proof.
  induction l1 as [| h1 t1 IH]; intros l2 S1 S2 Hp Hd.
  - apply Permutation_nil in Hp. now subst.
  - destruct l2 as [| h2 t2].
    { apply Permutation_sym, Permutation_nil in Hp. discriminate. }
    inversion S1 as [| ? ? S1' F1]; subst.
    inversion S2 as [| ? ? S2' F2]; subst.
    assert (Eh : h1 = h2).
    { assert (I1 : In h1 (h2 :: t2))
        by (eapply Permutation_in; [exact Hp | left; reflexivity]).
      assert (I2 : In h2 (h1 :: t1))
        by (eapply Permutation_in;
            [apply Permutation_sym; exact Hp | left; reflexivity]).
      destruct I1 as [E | I1]; [now symmetry |].
      destruct I2 as [E | I2]; [exact E |].
      rewrite Forall_forall in F1, F2.
      pose proof (F1 h2 I2) as R1. pose proof (F2 h1 I1) as R2.
      unfold peso_decrescente in R1, R2.
      apply Hd; [left; reflexivity | right; exact I2 |].
      apply Qle_antisym; assumption. }
    subst h2. f_equal.
    apply IH; try assumption.
    + eapply Permutation_cons_inv. exact Hp.
    + intros a b Ha Hb. apply Hd; right; assumption.
Qed.

Lemma combine_map_par (f : Proc -> Q) (rows : list Proc) :
  combine rows (map f rows) = map (fun p => (p, f p)) rows.
Proof.
  induction rows as [| p rows IH]; cbn [map combine];
    [reflexivity | now rewrite IH].
Qed.

(** X14: when no two distinct rows of the table have equal weights under
    the criterion, the heuristic's outcome (plan and totals, or
    exception) does not depend on the order of the rows. *)
Theorem ordem_irrelevante_guloso (d d' : DataFrame)
    (orcamento horas_sala leitos_uti : Q) (criterio : string) :
  Permutation (linhas d) (linhas d') ->
  (forall p q, In p (linhas d) -> In q (linhas d) ->
               peso_linha criterio p == peso_linha criterio q -> p = q) ->
  fst (Simplex.resolver_simplex_guloso d orcamento horas_sala leitos_uti
         criterio)
  = fst (Simplex.resolver_simplex_guloso d' orcamento horas_sala leitos_uti
           criterio).
Proof.
  intros Hp Hd.
  unfold Simplex.resolver_simplex_guloso.
  cbn [fst set_peso linhas peso Simplex.sort_values bind].
  rewrite !coluna_peso_map, !combine_map_par.
  set (par := fun p : Proc => (p, peso_linha criterio p)).
  assert (E : Simplex.ordenar (map par (linhas d))
              = Simplex.ordenar (map par (linhas d'))).
  { apply ordenada_unica; try apply ordenar_ordenada.
    - eapply perm_trans; [apply sort_values_perm |].
      eapply perm_trans; [apply Permutation_map; exact Hp |].
      apply Permutation_sym, sort_values_perm.
    - intros a b Ha Hb Hs.
      apply (Permutation_in _ (sort_values_perm _)) in Ha, Hb.
      apply in_map_iff in Ha, Hb.
      destruct Ha as [p [<- Hp1]]. destruct Hb as [q [<- Hq1]].
      unfold par in *. cbn [snd] in Hs.
      rewrite (Hd p q Hp1 Hq1 Hs). reflexivity. }
  rewrite E. reflexivity.
Qed.

Lemma ordem_irrelevante_exato_witness :
  Pulp.valor (Pulp.prob didatico 500000 6 1 "gravidade") [0; 0; 3]%Z
  == Pulp.valor (Pulp.prob didatico_invertido 500000 6 1 "gravidade")
       [3; 0; 0]%Z.
Proof.
  assert (Hp : Permutation (linhas didatico) (linhas didatico_invertido))
    by apply Permutation_rev.
  assert (Ho : Pulp.otimo (Pulp.prob didatico 500000 6 1 "gravidade")
                 [0; 0; 3]%Z)
    by (apply (didatico_otimo 500000 1); unfold Qle; simpl; lia).
  apply (ordem_irrelevante_exato didatico didatico_invertido 500000 6 1
           "gravidade" _ _ Hp Ho).
  split; [vm_compute; reflexivity |].
  intros z Hz.
  destruct (viavel_permutada didatico_invertido didatico 500000 6 1
              "gravidade" z (Permutation_sym Hp) Hz) as [z0 [Hz0 E]].
  rewrite <- E.
  eapply Qle_trans; [exact (proj2 Ho z0 Hz0) |].
  vm_compute. discriminate.
Defined.

Lemma ordem_irrelevante_guloso_witness :
  fst (Simplex.resolver_simplex_guloso didatico 500000 6 1 "gravidade")
  = fst (Simplex.resolver_simplex_guloso didatico_invertido 500000 6 1
           "gravidade").
Proof.
  apply ordem_irrelevante_guloso.
  - apply Permutation_rev.
  - intros p q Hp Hq Hw. cbn in Hp, Hq.
    destruct Hp as [<- | [<- | [<- | []]]];
      destruct Hq as [<- | [<- | [<- | []]]];
      try reflexivity; vm_compute in Hw; discriminate.
Defined.

(** * Shape of the program *)

Lemma nome_injetivo (i j : nat) :
  ("x_" ++ NilZero.string_of_uint (Nat.to_uint i))%string
  = ("x_" ++ NilZero.string_of_uint (Nat.to_uint j))%string -> i = j.
Proof.
  intro H. cbn [append] in H. injection H as H.
  assert (Hn : forall n, Nat.to_uint n <> Decimal.Nil).
  { intro n. rewrite <- (DecimalNat.Unsigned.of_to n) at 1.
    rewrite DecimalNat.Unsigned.to_of. apply DecimalFacts.unorm_nonnil. }
  apply DecimalNat.Unsigned.to_uint_inj.
  pose proof (NilZero.usu _ (Hn i)) as Hi.
  pose proof (NilZero.usu _ (Hn j)) as Hj.
  rewrite H in Hi. congruence.
Qed.

Lemma nomes_distintos (n k : nat) :
  NoDup (map (fun i => ("x_" ++ NilZero.string_of_uint (Nat.to_uint i))%string)
           (seq k n)).
Proof.
  revert k. induction n as [| n IH]; intro k; cbn [seq map].
  - constructor.
  - constructor; [| apply IH].
    intro Hin. apply in_map_iff in Hin. destruct Hin as [j [Ej Hj]].
    apply nome_injetivo in Ej. apply in_seq in Hj. lia.
Qed.

(** X15: the program the exact path builds is well formed for every
    table and criterion: one integer variable per procedure, bounded
    below by 0, with pairwise distinct names; an objective and exactly
    three constraints, each with one coefficient per variable. *)
Theorem problema_bem_formado (d : DataFrame)
    (orcamento horas_sala leitos_uti : Q) (criterio : string) :
  let p := Pulp.prob d orcamento horas_sala leitos_uti criterio in
  List.length (Pulp.variaveis p) = List.length (linhas d) /\
  Forall (fun v => Pulp.lowBound v = 0 /\ Pulp.cat v = Pulp.LpInteger)
    (Pulp.variaveis p) /\
  NoDup (map Pulp.v_nome (Pulp.variaveis p)) /\
  List.length (Pulp.objetivo p) = List.length (linhas d) /\
  map Pulp.r_nome (Pulp.restricoes p)
  = ["Orcamento"; "Tempo"; "UTI"]%string /\
  Forall (fun r => List.length (Pulp.coefs r) = List.length (linhas d))
    (Pulp.restricoes p).
Proof.
  cbn zeta. unfold Pulp.prob, Pulp.x.
  cbn [Pulp.variaveis Pulp.objetivo Pulp.restricoes map Pulp.r_nome].
  repeat split.
  - now rewrite length_map, length_seq.
  - apply Forall_map. apply Forall_forall. intros i _. cbn. split; reflexivity.
  - rewrite map_map. cbn [Pulp.v_nome]. apply nomes_distintos.
  - rewrite w_coluna_peso. apply length_pesos.
  - repeat constructor; cbn [Pulp.coefs]; apply length_map.
Qed.

(** * Special cases of the objective *)

Lemma lpSum_escala (f : Proc -> Q) (k : Q) (rows : list Proc) :
  forall y,
  Pulp.lpSum (map (fun p => f p * k) rows) y
  == k * Pulp.lpSum (map f rows) y.
Proof.
  induction rows as [| p rows IH]; intros [| q y]; cbn [map Pulp.lpSum];
    try ring.
  rewrite IH. ring.
Qed.

(** X16: under the cost-efficiency criterion, and under any unrecognised
    criterion string, the factor 10000 does not change which allocations
    are optimal: a point is an optimum of the program exactly when it is
    feasible and maximises the sum of severity over cost times
    quantity. *)
Theorem constante_irrelevante (d : DataFrame)
    (orcamento horas_sala leitos_uti : Q) (criterio : string)
    (y : list Z) :
  criterio <> "gravidade"%string -> criterio <> "incidencia"%string ->
  let p := Pulp.prob d orcamento horas_sala leitos_uti criterio in
  let razao := map (fun r => gravidade r / custo_r r) (linhas d) in
  (forall z, Pulp.valor p z == 10000 * Pulp.lpSum razao z) /\
  (Pulp.otimo p y <->
   Pulp.viavel p y = true /\
   forall z, Pulp.viavel p z = true ->
             Pulp.lpSum razao z <= Pulp.lpSum razao y).
Proof.
  intros Hg Hi p razao.
  assert (Hval : forall z, Pulp.valor p z == 10000 * Pulp.lpSum razao z).
  { intro z. unfold Pulp.valor, p, Pulp.prob. cbn [Pulp.objetivo].
    unfold Pulp.w. apply String.eqb_neq in Hg, Hi. rewrite Hg, Hi.
    apply (lpSum_escala (fun r => gravidade r / custo_r r) 10000). }
  split; [exact Hval |].
  unfold Pulp.otimo. split; intros [Hy Hmax]; (split; [exact Hy |]);
    intros z Hz; specialize (Hmax z Hz).
  - rewrite !Hval in Hmax. lra.
  - rewrite !Hval. lra.
Qed.

Lemma constante_irrelevante_witness :
  Pulp.valor (Pulp.prob didatico 500000 6 1 "custo_beneficio")
    [1; 0; 2]%Z
  == 10000 * Pulp.lpSum
               (map (fun r => gravidade r / custo_r r) (linhas didatico))
               [1; 0; 2]%Z.
Proof.
  refine (proj1 (constante_irrelevante didatico 500000 6 1
                   "custo_beneficio" [] _ _) _); discriminate.
Defined.


